(** * Dependency Health Checker: the update classifier, the fix applicator
      and the npm / python manifest scanners

    A shallow embedding of
      - src/analyzers/outdated.js  (check, parseVersion, getUpdateType),
      - src/index.js               (DependencyChecker.applyFixes),
      - src/scanners/npm.js        (scan, getVulnerabilities, parseAuditResults,
                                    applyUpdates, getVersionPrefix, shouldIgnore),
      - src/scanners/python.js     (scan, parseDependency, getVulnerabilities,
                                    mapSeverity, applyUpdates, extractOperator),
    followed by the properties of the specification that concern them.

    Conventions of the embedding.
      - A JavaScript string is a [string]; every character stands for one code
        unit in the range 0..255.
      - A call that may throw returns a [result]; [try ... catch] is
        [try_catch].  Network, file-system and child-process calls are
        functions supplied by the caller (oracles), as the scanner object is
        supplied to the analyzer in the source.
      - [undefined] and [null] are both [None] where the source only tests
        truthiness. *)

From Stdlib Require Import List String Ascii NArith ZArith Bool DecimalString.
Import ListNotations.
Open Scope string_scope.
Open Scope bool_scope.

(* ================================================================== *)
(** * Exceptions *)

(** A thrown value: an [Error] with its message and, when a child process
    failed, the output it had produced ([error.stdout]). *)
Record error : Type := mkError { message : string; stdout : option string }.

Definition Error (msg : string) : error := mkError msg None.
Definition TypeError (msg : string) : error := mkError msg None.

Inductive result (A : Type) : Type :=
| Ok (a : A)
| Throw (e : error).
Arguments Ok {A} a.
Arguments Throw {A} e.

Definition bind {A B : Type} (m : result A) (k : A -> result B) : result B :=
  match m with
  | Ok a => k a
  | Throw e => Throw e
  end.

Definition try_catch {A : Type} (body : result A) (handler : error -> result A)
  : result A :=
  match body with
  | Ok a => Ok a
  | Throw e => handler e
  end.

Notation "x <- m ;; k" := (bind m (fun x => k))
  (at level 61, m at next level, right associativity).

(* ================================================================== *)
(** * The string primitives of JavaScript that the sources use *)

Module Js.

(** White space as [String.prototype.trim] sees it, among the code units
    0..255: TAB, LF, VT, FF, CR, SPACE and NBSP. *)
Definition is_whitespace (c : ascii) : bool :=
  let n := N_of_ascii c in
  (n =? 9)%N || (n =? 10)%N || (n =? 11)%N || (n =? 12)%N || (n =? 13)%N
  || (n =? 32)%N || (n =? 160)%N.

Fixpoint trimStart (s : string) : string :=
  match s with
  | EmptyString => EmptyString
  | String c r => if is_whitespace c then trimStart r else s
  end.

Fixpoint trimEnd (s : string) : string :=
  match s with
  | EmptyString => EmptyString
  | String c r =>
      match trimEnd r with
      | EmptyString => if is_whitespace c then EmptyString else String c EmptyString
      | r' => String c r'
      end
  end.

(** [s.trim()] *)
Definition trim (s : string) : string := trimEnd (trimStart s).

(** [s.startsWith(p)] *)
Fixpoint startsWith (s p : string) {struct p} : bool :=
  match p with
  | EmptyString => true
  | String c p' =>
      match s with
      | EmptyString => false
      | String d s' => Ascii.eqb c d && startsWith s' p'
      end
  end.

(** [s.includes(sub)] *)
Fixpoint includes (s sub : string) : bool :=
  startsWith s sub
  || match s with
     | EmptyString => false
     | String _ r => includes r sub
     end.

(** [s.split(sep)] for a non-empty separator: the pieces between the
    successive non-overlapping occurrences of [sep], found left to right.
    [skip] counts the characters of a matched separator still to be
    dropped. *)
Fixpoint split_from (sep : string) (skip : nat) (s : string) : list string :=
  match s with
  | EmptyString => [EmptyString]
  | String c r =>
      match skip with
      | S k => split_from sep k r
      | O =>
          if startsWith s sep
          then EmptyString :: split_from sep (String.length sep - 1) r
          else match split_from sep 0 r with
               | p :: ps => String c p :: ps
               | [] => [String c EmptyString]
               end
      end
  end.

Definition split (s sep : string) : list string := split_from sep 0 s.

(** [pieces.join(sep)] *)
Fixpoint join (sep : string) (pieces : list string) : string :=
  match pieces with
  | [] => EmptyString
  | [p] => p
  | p :: ps => p ++ sep ++ join sep ps
  end.

(** [s.toLowerCase()] on the code units 0..255: A-Z, and the accented
    capitals 192..222 except the multiplication sign 215. *)
Definition lower_char (c : ascii) : ascii :=
  let n := N_of_ascii c in
  if ((65 <=? n) && (n <=? 90))%N
     || ((192 <=? n) && (n <=? 222) && negb (n =? 215))%N
  then ascii_of_N (n + 32)
  else c.

Fixpoint toLowerCase (s : string) : string :=
  match s with
  | EmptyString => EmptyString
  | String c r => String (lower_char c) (toLowerCase r)
  end.

(** Every character of [s] satisfies [p]. *)
Fixpoint all_chars (p : ascii -> bool) (s : string) : bool :=
  match s with
  | EmptyString => true
  | String c r => p c && all_chars p r
  end.

(** Truthiness of a string: only the empty string is falsy. *)
Definition truthy (s : string) : bool :=
  match s with
  | EmptyString => false
  | String _ _ => true
  end.

(** Truthiness of a value that is a string, [undefined] or [null]. *)
Definition truthy_opt (v : option string) : bool :=
  match v with
  | Some s => truthy s
  | None => false
  end.

(** [a || b] on such values. *)
Definition or_else (a b : option string) : option string :=
  if truthy_opt a then a else b.

(** [xs.includes(x)] on an array of strings. *)
Definition array_includes (xs : list string) (x : string) : bool :=
  existsb (String.eqb x) xs.

End Js.

(* ================================================================== *)
(** * The semver package *)

Module semver.

(** The parsed version: the analyzer reads [major], [minor] and [patch]
    only. *)
Record SemVer : Type := mkSemVer { major : N; minor : N; patch : N }.

Definition MAX_LENGTH : nat := 256.
Definition MAX_SAFE_INTEGER : N := 9007199254740991.

Definition is_digit (c : ascii) : bool :=
  let n := N_of_ascii c in ((48 <=? n) && (n <=? 57))%N.

Definition is_letter_or_dash (c : ascii) : bool :=
  let n := N_of_ascii c in
  ((65 <=? n) && (n <=? 90))%N || ((97 <=? n) && (n <=? 122))%N || (n =? 45)%N.

Definition is_ident_char (c : ascii) : bool := is_digit c || is_letter_or_dash c.

(** The longest prefix of digits, and what follows it. *)
Fixpoint span_digits (s : string) : string * string :=
  match s with
  | EmptyString => (EmptyString, EmptyString)
  | String c r =>
      if is_digit c
      then let (d, rest) := span_digits r in (String c d, rest)
      else (EmptyString, s)
  end.

Fixpoint digits_value (acc : N) (s : string) : N :=
  match s with
  | EmptyString => acc
  | String c r => digits_value (acc * 10 + (N_of_ascii c - 48))%N r
  end.

(** [0|[1-9]\d*] *)
Definition numeric_identifier (d : string) : bool :=
  match d with
  | EmptyString => false
  | String c r =>
      Js.all_chars is_digit d
      && (negb (Ascii.eqb c "0") || match r with EmptyString => true | _ => false end)
  end.

(** [0|[1-9]\d*|\d*[a-zA-Z-][a-zA-Z0-9-]*] *)
Definition prerelease_identifier (d : string) : bool :=
  match d with
  | EmptyString => false
  | _ => Js.all_chars is_ident_char d
         && (numeric_identifier d || negb (Js.all_chars is_digit d))
  end.

(** [[0-9A-Za-z-]+] *)
Definition build_identifier (d : string) : bool :=
  match d with
  | EmptyString => false
  | _ => Js.all_chars is_ident_char d
  end.

(** The text up to the first [c], and the text after it when there is one. *)
Fixpoint break_at (c : ascii) (s : string) : string * option string :=
  match s with
  | EmptyString => (EmptyString, None)
  | String x r =>
      if Ascii.eqb x c then (EmptyString, Some r)
      else let (a, b) := break_at c r in (String x a, b)
  end.

(** What may follow the patch number: nothing, [-prerelease], [+build], or
    both in that order; identifiers are separated by dots. *)
Definition valid_tail (s : string) : bool :=
  match s with
  | EmptyString => true
  | String c r =>
      if Ascii.eqb c "-" then
        let (pre, build) := break_at "+" r in
        forallb prerelease_identifier (Js.split pre ".")
        && match build with
           | None => true
           | Some b => forallb build_identifier (Js.split b ".")
           end
      else if Ascii.eqb c "+" then forallb build_identifier (Js.split r ".")
      else false
  end.

(** One numeric component followed by the separator [sep]. *)
Definition component (s : string) : option (N * string) :=
  let (d, rest) := span_digits s in
  if numeric_identifier d
  then let n := digits_value 0 d in
       if (n <=? MAX_SAFE_INTEGER)%N then Some (n, rest) else None
  else None.

Definition expect_dot (s : string) : option string :=
  match s with
  | String c r => if Ascii.eqb c "." then Some r else None
  | EmptyString => None
  end.

(** Modelled from the spec: the semver package ([semver.parse] and
    [semver.valid] in strict mode), which the repository imports and does
    not contain.  The spec asks for "a well-formed semantic version
    (major.minor.patch[-prerelease])"; the package accepts, after trimming
    white space and within 256 characters, an optional [v], three numeric
    components without leading zeros and at most [MAX_SAFE_INTEGER],
    separated by dots, then an optional prerelease and an optional build
    tag.  [None] is the package's [null]. *)
Definition parse (version : string) : option SemVer :=
  if Nat.ltb MAX_LENGTH (String.length version) then None
  else
    let t := Js.trim version in
    let t := match t with
             | String c r => if Ascii.eqb c "v" then r else t
             | EmptyString => t
             end in
    match component t with
    | None => None
    | Some (ma, r1) =>
        match expect_dot r1 with
        | None => None
        | Some r1 =>
            match component r1 with
            | None => None
            | Some (mi, r2) =>
                match expect_dot r2 with
                | None => None
                | Some r2 =>
                    match component r2 with
                    | None => None
                    | Some (pa, r3) =>
                        if valid_tail r3 then Some (mkSemVer ma mi pa) else None
                    end
                end
            end
        end
    end.

(** [semver.valid(v)] is the normalised version string or [null]; the
    sources only test its truthiness. *)
Definition valid (version : string) : bool :=
  match parse version with
  | Some _ => true
  | None => false
  end.

End semver.

(* ================================================================== *)
(** * JSON documents and the values read from them *)

#[local] Set Warnings "-register-all".
Inductive json : Type :=
| JNull
| JBool (b : bool)
| JNum (n : Z)
| JStr (s : string)
| JArr (items : list json)
| JObj (fields : list (string * json)).
#[local] Set Warnings "register-all".

(** What a property read can yield: [undefined], a JSON value, or a member
    that every object inherits from [Object.prototype] (a function, or the
    prototype itself for [__proto__]). *)
Inductive value : Type :=
| Undefined
| J (j : json)
| Inherited (member : string).

Module JsObject.

(** The properties of [Object.prototype]. *)
Definition prototype_names : list string :=
  [ "constructor"; "__defineGetter__"; "__defineSetter__"; "hasOwnProperty";
    "__lookupGetter__"; "__lookupSetter__"; "isPrototypeOf";
    "propertyIsEnumerable"; "toString"; "valueOf"; "__proto__";
    "toLocaleString" ].

Definition inherited (key : string) : bool := Js.array_includes prototype_names key.

(** The own property [key] of an object given by its entries. *)
Fixpoint own {A : Type} (key : string) (entries : list (string * A)) : option A :=
  match entries with
  | [] => None
  | (k, v) :: rest => if String.eqb key k then Some v else own key rest
  end.

(** [entries[key] = v] for an own property [key]: the value changes, the
    position of the key does not. *)
Fixpoint assign {A : Type} (key : string) (v : A) (entries : list (string * A))
  : list (string * A) :=
  match entries with
  | [] => []
  | (k, w) :: rest =>
      if String.eqb key k then (k, v) :: rest else (k, w) :: assign key v rest
  end.

Definition truthy_json (j : json) : bool :=
  match j with
  | JNull => false
  | JBool b => b
  | JNum n => negb (Z.eqb n 0)
  | JStr s => Js.truthy s
  | JArr _ | JObj _ => true
  end.

Definition truthy (v : value) : bool :=
  match v with
  | Undefined => false
  | J j => truthy_json j
  | Inherited _ => true
  end.

(** [v.key] for the keys the scanners read ([vulnerabilities], [via],
    [title], [url], [range], [severity], [fixAvailable], [advisory], [cve],
    [specs], [fixed_in]): none of them names a property of a built-in
    prototype, so only an object can hold one; reading from [null] or
    [undefined] throws. *)
Definition get (v : value) (key : string) : result value :=
  match v with
  | Undefined =>
      Throw (TypeError ("Cannot read properties of undefined (reading '" ++ key ++ "')"))
  | J JNull =>
      Throw (TypeError ("Cannot read properties of null (reading '" ++ key ++ "')"))
  | J (JObj fields) =>
      match own key fields with
      | Some j => Ok (J j)
      | None => Ok Undefined
      end
  | _ => Ok Undefined
  end.

(** Decimal notation of an array index. *)
Definition index_name (i : nat) : string := NilEmpty.string_of_uint (Nat.to_uint i).

Fixpoint indexed {A : Type} (i : nat) (xs : list A) : list (string * A) :=
  match xs with
  | [] => []
  | x :: rest => (index_name i, x) :: indexed (S i) rest
  end.

Fixpoint chars (s : string) : list json :=
  match s with
  | EmptyString => []
  | String c r => JStr (String c EmptyString) :: chars r
  end.

(** [Object.entries(v)] for a truthy [v]. *)
Definition entries (v : value) : list (string * json) :=
  match v with
  | J (JObj fields) => fields
  | J (JArr items) => indexed 0 items
  | J (JStr s) => indexed 0 (chars s)
  | _ => []
  end.

(** [typeof v === 'object'] *)
Definition typeof_object (v : value) : bool :=
  match v with
  | J JNull | J (JArr _) | J (JObj _) => true
  | Inherited m => String.eqb m "__proto__"
  | _ => false
  end.

End JsObject.

(* ================================================================== *)
(** * The data model *)

(** [type] of a dependency: ['production'] or ['development']. *)
Inductive DepType : Type := production | development.

(** [updateType] of an outdated package. *)
Inductive UpdateType : Type := major | minor | patch | none | unknown.

Definition DepType_eqb (a b : DepType) : bool :=
  match a, b with
  | production, production | development, development => true
  | _, _ => false
  end.

Definition UpdateType_eqb (a b : UpdateType) : bool :=
  match a, b with
  | major, major | minor, minor | patch, patch | none, none
  | unknown, unknown => true
  | _, _ => false
  end.

(** The options object of the command line, as the scanners and the analyzer
    read it. *)
Record Options : Type := mkOptions {
  dev : bool;
  opt_production : bool;          (* options.production *)
  ignore : option string;
  verbose : bool;
  quiet : bool;
  opt_json : bool                 (* options.json *)
}.

Definition default_options : Options :=
  mkOptions false false None false false false.

(** A declared dependency, as [scan] returns it.  The npm scanner fills
    [installed]; the python scanner fills [specifiedVersion] and leaves
    [installed] undefined. *)
Module Dependency.
Record t : Type := mk {
  name : string;
  version : string;
  specifiedVersion : option string;
  type : DepType;
  installed : option string
}.
End Dependency.

(** An entry of the analyzer's [outdated] array. *)
Module OutdatedPackage.
Record t : Type := mk {
  name : string;
  current : string;
  wanted : string;
  latest : string;
  type : DepType;
  updateType : UpdateType;
  safe : bool;
  breaking : bool
}.
End OutdatedPackage.

(** The operations of a scanner that the analyzer and the checker call, over
    a manifest of type [M] (the parsed package.json, or the text of
    requirements.txt).  [getLatestVersion] resolves to the registry's version
    string ([None]: the record has none) or rejects. *)
Record Scanner (M : Type) : Type := mkScanner {
  getLatestVersion : string -> result (option string);
  applyUpdates : list OutdatedPackage.t -> M -> result M
}.
Arguments getLatestVersion {M} _ _.
Arguments applyUpdates {M} _ _ _.

(** A vulnerability finding.  The npm scanner fills [url], [range] and
    [fixAvailable]; the python scanner fills [cve], [affectedVersions] and
    [fixedIn]; a field a scanner does not write is [Undefined]. *)
Module Vulnerability.
Record t : Type := mk {
  package : string;
  severity : value;
  title : value;
  url : value;
  range : value;
  fixAvailable : value;
  cve : value;
  affectedVersions : value;
  fixedIn : value
}.
End Vulnerability.

(** The four severity levels of a finding. *)
Definition severity_levels : list string := ["low"; "moderate"; "high"; "critical"].

Definition in_taxonomy (v : value) : bool :=
  match v with
  | J (JStr s) => Js.array_includes severity_levels s
  | _ => false
  end.

(** [this.options.ignore.split(',').map(p => p.trim()).includes(packageName)],
    the same method in both scanners. *)
Definition shouldIgnore (options : Options) (packageName : string) : bool :=
  match ignore options with
  | None => false
  | Some list =>
      if negb (Js.truthy list) then false
      else
        let ignoreList := map Js.trim (Js.split list ",") in
        Js.array_includes ignoreList packageName
  end.

(* ================================================================== *)
(** * src/analyzers/outdated.js *)

Module outdated.

(** The class [[\^~>=<]] of [parseVersion]'s regular expression. *)
Definition is_range_char (c : ascii) : bool :=
  Ascii.eqb c "^" || Ascii.eqb c "~" || Ascii.eqb c ">" || Ascii.eqb c "="
  || Ascii.eqb c "<".

(** [versionString.replace(/^[\^~>=<]+/, '')] *)
Fixpoint strip_range_chars (s : string) : string :=
  match s with
  | EmptyString => EmptyString
  | String c r => if is_range_char c then strip_range_chars r else s
  end.

Definition parseVersion (versionString : string) : option string :=
  if negb (Js.truthy versionString) then None
  else
    let cleanVersion := strip_range_chars versionString in
    if semver.valid cleanVersion then Some cleanVersion else None.

(** The [catch] of the source turns a failed property read on a [null]
    parse into ['unknown']. *)
Definition getUpdateType (current latest : string) : UpdateType :=
  if negb (semver.valid current) || negb (semver.valid latest) then unknown
  else
    match semver.parse current, semver.parse latest with
    | Some currentParsed, Some latestParsed =>
        if (semver.major currentParsed <? semver.major latestParsed)%N then major
        else if (semver.minor currentParsed <? semver.minor latestParsed)%N then minor
        else if (semver.patch currentParsed <? semver.patch latestParsed)%N then patch
        else none
    | _, _ => unknown
    end.

(** The body of the [try] block for one dependency: the [outdated] array
    after it, or the exception of the lookup. *)
Definition try_body {M} (scanner : Scanner M) (dep : Dependency.t)
           (outdated : list OutdatedPackage.t) : result (list OutdatedPackage.t) :=
  latestVersion <- getLatestVersion scanner (Dependency.name dep) ;;
  let currentVersion :=
    Js.or_else (Dependency.installed dep) (parseVersion (Dependency.version dep)) in
  match currentVersion, latestVersion with
  | Some currentVersion, Some latestVersion =>
      if Js.truthy currentVersion && Js.truthy latestVersion
         && negb (String.eqb currentVersion latestVersion)
      then
        let updateType := getUpdateType currentVersion latestVersion in
        let isSafe := negb (UpdateType_eqb updateType major) in
        Ok (outdated ++
            [OutdatedPackage.mk (Dependency.name dep) currentVersion
               (Dependency.version dep) latestVersion (Dependency.type dep)
               updateType isSafe (UpdateType_eqb updateType major)])%list
      else Ok outdated
  | _, _ => Ok outdated
  end.

(** One turn of the [for] loop.  In verbose mode the [catch] reads
    [error.message] for the console, and then goes on like the silent one.
    A thrown value is an [Error] object here, whose message can be read; a
    scanner that rejects with [null] or [undefined], on which the read
    throws, has no counterpart. *)
Definition iteration {M} (scanner : Scanner M) (options : Options)
           (dep : Dependency.t) (outdated : list OutdatedPackage.t)
  : result (list OutdatedPackage.t) :=
  try_catch (try_body scanner dep outdated)
            (fun error =>
               if verbose options
               then
                 let warning :=
                   String "010" "Warning: Could not check " ++ Dependency.name dep
                   ++ ": " ++ message error in
                 Ok outdated
               else Ok outdated).

Fixpoint check_from {M} (scanner : Scanner M) (options : Options)
         (dependencies : list Dependency.t) (outdated : list OutdatedPackage.t)
  : result (list OutdatedPackage.t) :=
  match dependencies with
  | [] => Ok outdated
  | dep :: rest =>
      outdated' <- iteration scanner options dep outdated ;;
      check_from scanner options rest outdated'
  end.

(** [check(dependencies, scanner, options)]; the spinner and the console
    are not part of the result. *)
Definition check {M} (dependencies : list Dependency.t) (scanner : Scanner M)
           (options : Options) : result (list OutdatedPackage.t) :=
  check_from scanner options dependencies [].

End outdated.

(* ================================================================== *)
(** * src/index.js *)

Module DependencyChecker.

(** [outdated.filter(pkg => pkg.safe && !pkg.breaking)] *)
Definition safeUpdates (outdated : list OutdatedPackage.t) : list OutdatedPackage.t :=
  filter (fun pkg => OutdatedPackage.safe pkg && negb (OutdatedPackage.breaking pkg))
         outdated.

(** [applyFixes(outdated)] with [this.scanner] (absent before detection) and
    the manifest on disk; the result is the manifest afterwards. *)
Definition applyFixes {M} (scanner : option (Scanner M))
           (outdated : list OutdatedPackage.t) (manifest : M) : result M :=
  match scanner with
  | None => Throw (Error "Project type not detected. Run detectProjectType() first.")
  | Some scanner =>
      let safeUpdates := safeUpdates outdated in
      if Nat.eqb (List.length safeUpdates) 0
      then Ok manifest
      else applyUpdates scanner safeUpdates manifest
  end.

End DependencyChecker.

(* ================================================================== *)
(** * src/scanners/npm.js *)

(** A parsed package.json: its two dependency sections, each absent or an
    object from package names to constraint strings in the order of its
    keys, and every other field. *)
Record PackageJson : Type := mkPackageJson {
  dependencies : option (list (string * string));
  devDependencies : option (list (string * string));
  other_fields : list (string * json)
}.

Module NpmScanner.

(** The section names ['dependencies'] and ['devDependencies']. *)
Inductive Section : Type := dependencies_section | devDependencies_section.

Definition section_of (packageJson : PackageJson) (s : Section)
  : option (list (string * string)) :=
  match s with
  | dependencies_section => dependencies packageJson
  | devDependencies_section => devDependencies packageJson
  end.

Definition with_section (packageJson : PackageJson) (s : Section)
           (entries : list (string * string)) : PackageJson :=
  match s with
  | dependencies_section =>
      mkPackageJson (Some entries) (devDependencies packageJson)
                    (other_fields packageJson)
  | devDependencies_section =>
      mkPackageJson (dependencies packageJson) (Some entries)
                    (other_fields packageJson)
  end.

(** The entries of one section that [scan] pushes; [node_modules] is
    [getInstalledVersion], which reads the installed package's version and
    returns [null] when it cannot. *)
Fixpoint scan_entries (options : Options) (node_modules : string -> option string)
         (type : DepType) (entries : list (string * string)) : list Dependency.t :=
  match entries with
  | [] => []
  | (name, version) :: rest =>
      if shouldIgnore options name
      then scan_entries options node_modules type rest
      else Dependency.mk name version None type (node_modules name)
           :: scan_entries options node_modules type rest
  end.

Definition scan (options : Options) (node_modules : string -> option string)
           (packageJson : PackageJson) : list Dependency.t :=
  (match dependencies packageJson with
   | Some entries =>
       if negb (dev options)
       then scan_entries options node_modules production entries
       else []
   | None => []
   end
   ++
   match devDependencies packageJson with
   | Some entries =>
       if negb (opt_production options)
       then scan_entries options node_modules development entries
       else []
   | None => []
   end)%list.

(** The [forEach] over one [via] array. *)
Fixpoint push_vias (packageName : string) (vulnInfo : value) (vias : list json)
         (vulnerabilities : list Vulnerability.t) : result (list Vulnerability.t) :=
  match vias with
  | [] => Ok vulnerabilities
  | via :: rest =>
      let via := J via in
      if JsObject.typeof_object via then
        title <- JsObject.get via "title" ;;
        if JsObject.truthy title then
          severity <- JsObject.get vulnInfo "severity" ;;
          url <- JsObject.get via "url" ;;
          range <- JsObject.get vulnInfo "range" ;;
          fixAvailable <- JsObject.get vulnInfo "fixAvailable" ;;
          push_vias packageName vulnInfo rest
            (vulnerabilities ++
             [Vulnerability.mk packageName severity title url range fixAvailable
                               Undefined Undefined Undefined])%list
        else push_vias packageName vulnInfo rest vulnerabilities
      else push_vias packageName vulnInfo rest vulnerabilities
  end.

(** The [for] loop over [Object.entries(auditData.vulnerabilities)]. *)
Fixpoint push_packages (entries : list (string * json))
         (vulnerabilities : list Vulnerability.t) : result (list Vulnerability.t) :=
  match entries with
  | [] => Ok vulnerabilities
  | (packageName, vulnInfo) :: rest =>
      let vulnInfo := J vulnInfo in
      via <- JsObject.get vulnInfo "via" ;;
      match via with
      | J (JArr vias) =>
          vulnerabilities' <- push_vias packageName vulnInfo vias vulnerabilities ;;
          push_packages rest vulnerabilities'
      | _ => push_packages rest vulnerabilities
      end
  end.

Definition parseAuditResults (auditData : json) : result (list Vulnerability.t) :=
  vulnerabilities <- JsObject.get (J auditData) "vulnerabilities" ;;
  if JsObject.truthy vulnerabilities
  then push_packages (JsObject.entries vulnerabilities) []
  else Ok [].

(** [getVulnerabilities(dependencies)].  [execAsync] runs the audit command
    and resolves to its output, or rejects with an error that may carry the
    output; [JSON_parse] is [JSON.parse]. *)
Definition getVulnerabilities (execAsync : string -> result string)
           (JSON_parse : string -> result json)
           (dependencies : list Dependency.t) : result (list Vulnerability.t) :=
  try_catch
    (out <- execAsync "npm audit --json" ;;
     auditData <- JSON_parse out ;;
     parseAuditResults auditData)
    (fun error =>
       if Js.truthy_opt (stdout error) then
         try_catch
           (auditData <- JSON_parse (match stdout error with
                                     | Some out => out
                                     | None => EmptyString
                                     end) ;;
            parseAuditResults auditData)
           (fun parseError => Ok [])
       else Ok []).

Definition getVersionPrefix (versionString : string) : string :=
  if Js.startsWith versionString "^" then "^"
  else if Js.startsWith versionString "~" then "~"
  else if Js.startsWith versionString ">=" then ">="
  else if Js.startsWith versionString ">" then ">"
  else if Js.startsWith versionString "<=" then "<="
  else if Js.startsWith versionString "<" then "<"
  else "".

Definition targetSection (update : OutdatedPackage.t) : Section :=
  if DepType_eqb (OutdatedPackage.type update) production
  then dependencies_section
  else devDependencies_section.

(** One turn of the loop of [applyUpdates].  A name that the section does
    not hold but every object inherits reads as a function, which is truthy
    and has no [startsWith]: [getVersionPrefix] throws. *)
Definition apply_update (packageJson : PackageJson) (update : OutdatedPackage.t)
  : result PackageJson :=
  let targetSection := targetSection update in
  match section_of packageJson targetSection with
  | None => Ok packageJson
  | Some entries =>
      match JsObject.own (OutdatedPackage.name update) entries with
      | Some versionString =>
          if Js.truthy versionString then
            let versionPrefix := getVersionPrefix versionString in
            Ok (with_section packageJson targetSection
                  (JsObject.assign (OutdatedPackage.name update)
                     (versionPrefix ++ OutdatedPackage.latest update) entries))
          else Ok packageJson
      | None =>
          if JsObject.inherited (OutdatedPackage.name update)
          then Throw (TypeError "versionString.startsWith is not a function")
          else Ok packageJson
      end
  end.

(** [applyUpdates(updates, projectPath)] on the parsed manifest: [Ok] holds
    the object that is serialised and written; nothing is written when the
    loop throws. *)
Fixpoint applyUpdates (updates : list OutdatedPackage.t) (packageJson : PackageJson)
  : result PackageJson :=
  match updates with
  | [] => Ok packageJson
  | update :: rest =>
      packageJson' <- apply_update packageJson update ;;
      applyUpdates rest packageJson'
  end.

(** The scanner object; [registry] stands for [getLatestVersion], the
    request to the registry for the [latest] record of a package. *)
Definition scanner (registry : string -> result (option string))
  : Scanner PackageJson :=
  mkScanner PackageJson registry applyUpdates.

End NpmScanner.

(* ================================================================== *)
(** * src/scanners/python.js *)

Module PythonScanner.

(** The object that [parseDependency] returns. *)
Record Parsed : Type := mkParsed {
  name : string;
  version : string;
  specifiedVersion : option string
}.

Definition operators : list string := [">="; "<="; "=="; "!="; "~="; ">"; "<"].

(** The loop of [parseDependency] over the operators still to try.  A line
    that includes [op] splits into at least two pieces; were there one,
    [version.trim()] would throw. *)
Fixpoint parse_with (ops : list string) (line : string) : result Parsed :=
  match ops with
  | [] => Ok (mkParsed (Js.trim line) "*" None)
  | op :: rest =>
      if Js.includes line op then
        match Js.split line op with
        | name :: version :: _ =>
            Ok (mkParsed (Js.trim name) (op ++ Js.trim version) (Some (Js.trim version)))
        | _ => Throw (TypeError "Cannot read properties of undefined (reading 'trim')")
        end
      else parse_with rest line
  end.

Definition parseDependency (line : string) : result Parsed := parse_with operators line.

Definition newline : string := String "010" EmptyString.

(** The body of the loop of [scan] for one line. *)
Definition scan_line (options : Options) (line : string) : result (list Dependency.t) :=
  let trimmed := Js.trim line in
  if negb (Js.truthy trimmed) || Js.startsWith trimmed "#" then Ok []
  else
    dependency <- parseDependency trimmed ;;
    if negb (shouldIgnore options (name dependency))
    then Ok [Dependency.mk (name dependency) (version dependency)
               (specifiedVersion dependency) production None]
    else Ok [].

Fixpoint scan_lines (options : Options) (lines : list string)
  : result (list Dependency.t) :=
  match lines with
  | [] => Ok []
  | line :: rest =>
      found <- scan_line options line ;;
      more <- scan_lines options rest ;;
      Ok (found ++ more)%list
  end.

(** [scan(projectPath)] on the text of requirements.txt. *)
Definition scan (options : Options) (content : string) : result (list Dependency.t) :=
  scan_lines options (Js.split content newline).

Definition severityMap : list (string * string) :=
  [ ("critical", "critical"); ("high", "high"); ("medium", "moderate");
    ("moderate", "moderate"); ("low", "low") ].

(** [severityMap[severity.toLowerCase()] || 'moderate'].  The read also
    finds what the map inherits from [Object.prototype]; a severity that is
    not a string has no [toLowerCase]. *)
Definition mapSeverity (severity : value) : result value :=
  match severity with
  | J (JStr s) =>
      let key := Js.toLowerCase s in
      match JsObject.own key severityMap with
      | Some level => Ok (J (JStr level))
      | None =>
          if JsObject.inherited key then Ok (Inherited key)
          else Ok (J (JStr "moderate"))
      end
  | Undefined =>
      Throw (TypeError "Cannot read properties of undefined (reading 'toLowerCase')")
  | J JNull =>
      Throw (TypeError "Cannot read properties of null (reading 'toLowerCase')")
  | _ => Throw (TypeError "severity.toLowerCase is not a function")
  end.

(** The [forEach] over the vulnerabilities of one package: the array of
    findings after it, and the exception that stopped it, if any.  What was
    pushed before an exception stays pushed. *)
Fixpoint push_vulns (package : string) (vulns : list json)
         (vulnerabilities : list Vulnerability.t)
  : list Vulnerability.t * result unit :=
  match vulns with
  | [] => (vulnerabilities, Ok tt)
  | vuln :: rest =>
      let vuln := J vuln in
      match (raw <- JsObject.get vuln "severity" ;;
             severity <- mapSeverity raw ;;
             title <- JsObject.get vuln "advisory" ;;
             cve <- JsObject.get vuln "cve" ;;
             affectedVersions <- JsObject.get vuln "specs" ;;
             fixedIn <- JsObject.get vuln "fixed_in" ;;
             Ok (Vulnerability.mk package severity title Undefined Undefined
                                  Undefined cve affectedVersions fixedIn))
      with
      | Ok finding => push_vulns package rest (vulnerabilities ++ [finding])%list
      | Throw e => (vulnerabilities, Throw e)
      end
  end.

(** The [try] block for one dependency; [axios_get] resolves to
    [response.data] or rejects. *)
Definition try_body (axios_get : string -> result json) (dep : Dependency.t)
           (vulnerabilities : list Vulnerability.t)
  : list Vulnerability.t * result unit :=
  match axios_get ("https://pyup.io/api/v1/safety/" ++ Dependency.name dep) with
  | Throw e => (vulnerabilities, Throw e)
  | Ok data =>
      if JsObject.truthy_json data then
        match JsObject.get (J data) "vulnerabilities" with
        | Throw e => (vulnerabilities, Throw e)
        | Ok vulns =>
            if JsObject.truthy vulns then
              match vulns with
              | J (JArr items) => push_vulns (Dependency.name dep) items vulnerabilities
              | _ => (vulnerabilities,
                      Throw (TypeError "response.data.vulnerabilities.forEach is not a function"))
              end
            else (vulnerabilities, Ok tt)
        end
      else (vulnerabilities, Ok tt)
  end.

(** The loop of [getVulnerabilities]: the [catch] continues with the next
    dependency. *)
Fixpoint getVulnerabilities_from (axios_get : string -> result json)
         (dependencies : list Dependency.t) (vulnerabilities : list Vulnerability.t)
  : result (list Vulnerability.t) :=
  match dependencies with
  | [] => Ok vulnerabilities
  | dep :: rest =>
      let (vulnerabilities', outcome) := try_body axios_get dep vulnerabilities in
      _ <- try_catch outcome (fun error => Ok tt) ;;
      getVulnerabilities_from axios_get rest vulnerabilities'
  end.

Definition getVulnerabilities (axios_get : string -> result json)
           (dependencies : list Dependency.t) : result (list Vulnerability.t) :=
  getVulnerabilities_from axios_get dependencies [].

Fixpoint extractOperator_from (ops : list string) (versionString : string)
  : option string :=
  match ops with
  | [] => None
  | op :: rest =>
      if Js.startsWith versionString op then Some op
      else extractOperator_from rest versionString
  end.

Definition extractOperator (versionString : string) : option string :=
  extractOperator_from operators versionString.

(** The function that [applyUpdates] maps over the lines. *)
Definition update_line (updates : list OutdatedPackage.t) (line : string)
  : result string :=
  let trimmed := Js.trim line in
  if negb (Js.truthy trimmed) || Js.startsWith trimmed "#" then Ok line
  else
    dependency <- parseDependency trimmed ;;
    match find (fun u => String.eqb (OutdatedPackage.name u) (name dependency)) updates with
    | None => Ok line
    | Some update =>
        let operator := match extractOperator (version dependency) with
                        | Some op => op
                        | None => "=="
                        end in
        Ok (name dependency ++ operator ++ OutdatedPackage.latest update)
    end.

Fixpoint update_lines (updates : list OutdatedPackage.t) (lines : list string)
  : result (list string) :=
  match lines with
  | [] => Ok []
  | line :: rest =>
      line' <- update_line updates line ;;
      rest' <- update_lines updates rest ;;
      Ok (line' :: rest')
  end.

(** [applyUpdates(updates, projectPath)] on the text of requirements.txt:
    [Ok] holds the text that is written. *)
Definition applyUpdates (updates : list OutdatedPackage.t) (content : string)
  : result string :=
  updatedLines <- update_lines updates (Js.split content newline) ;;
  Ok (Js.join newline updatedLines).

(** The scanner object; [registry] stands for [getLatestVersion], the
    request to PyPI for the version of a package. *)
Definition scanner (registry : string -> result (option string)) : Scanner string :=
  mkScanner string registry applyUpdates.

(** [scan(projectPath)] from the read of the file on: [readFile] is
    [fs.readFile(path, 'utf8')], which rejects when the file is missing or
    unreadable, and [path_join] is [path.join]; the read stands outside any
    [try]. *)
Definition scan_path (options : Options) (path_join : string -> string -> string)
           (readFile : string -> result string) (projectPath : string)
  : result (list Dependency.t) :=
  let requirementsPath := path_join projectPath "requirements.txt" in
  content <- readFile requirementsPath ;;
  scan options content.

End PythonScanner.

(* ================================================================== *)
(** * The report, the JSON formatter and the command line *)

(** The report that the command line assembles from a scan. *)
Module Report.
Record t : Type := mk {
  dependencies : list Dependency.t;
  outdated : list OutdatedPackage.t;
  vulnerabilities : list Vulnerability.t
}.
End Report.

(** [v.severity === s] for a string [s]. *)
Definition severity_is (s : string) (v : Vulnerability.t) : bool :=
  match Vulnerability.severity v with
  | J (JStr x) => String.eqb x s
  | _ => false
  end.

(** [o.updateType === 'major'] *)
Definition is_major (o : OutdatedPackage.t) : bool :=
  UpdateType_eqb (OutdatedPackage.updateType o) major.

(** A number inside a template literal. *)
Definition number (n : nat) : string := NilEmpty.string_of_uint (Nat.to_uint n).

(** The formatter of [--json] reports (the second module of
    src/formatters/text.js as given). *)
Module json_formatter.

Record Recommendation : Type := mkRecommendation {
  type : string;
  priority : string;
  message : string;
  action : string
}.

(** One [if (count > 0) recommendations.push(...)]. *)
Definition push_if_any (count : nat) (r : Recommendation)
           (recommendations : list Recommendation) : list Recommendation :=
  if Nat.ltb 0 count then (recommendations ++ [r])%list else recommendations.

Definition generateRecommendations (report : Report.t) : list Recommendation :=
  let recommendations := [] in
  let safeUpdates := List.length (filter OutdatedPackage.safe (Report.outdated report)) in
  let recommendations :=
    push_if_any safeUpdates
      (mkRecommendation "update" "medium"
         (number safeUpdates ++ " packages can be safely updated") "depcheck --fix")
      recommendations in
  let majorUpdates := List.length (filter is_major (Report.outdated report)) in
  let recommendations :=
    push_if_any majorUpdates
      (mkRecommendation "review" "low"
         (number majorUpdates ++ " major version updates available")
         "Review breaking changes before updating")
      recommendations in
  let criticalVulns :=
    List.length (filter (severity_is "critical") (Report.vulnerabilities report)) in
  let recommendations :=
    push_if_any criticalVulns
      (mkRecommendation "security" "critical"
         (number criticalVulns ++ " critical vulnerabilities found")
         "Update affected packages immediately")
      recommendations in
  let highVulns :=
    List.length (filter (severity_is "high") (Report.vulnerabilities report)) in
  push_if_any highVulns
    (mkRecommendation "security" "high"
       (number highVulns ++ " high severity vulnerabilities found")
       "Update affected packages as soon as possible")
    recommendations.

End json_formatter.

(** The command line (the third module of src/formatters/text.js as
    given). *)
Module cli.

(** The options that [determineExitCode] reads. *)
Record ExitOptions : Type := mkExitOptions {
  failOnHigh : bool;
  failOnOutdated : bool;
  threshold : option string
}.

Definition severityLevels : list string := ["low"; "moderate"; "high"; "critical"].

(** [severityLevels.indexOf(x)] from position [i] on, for a value [x]
    compared by [===]; -1 when it is not there. *)
Fixpoint indexOf_from (i : Z) (levels : list string) (x : value) : Z :=
  match levels with
  | [] => (-1)%Z
  | level :: rest =>
      match x with
      | J (JStr s) => if String.eqb s level then i else indexOf_from (i + 1)%Z rest x
      | _ => indexOf_from (i + 1)%Z rest x
      end
  end.

Definition indexOf (levels : list string) (x : value) : Z := indexOf_from 0%Z levels x.

Definition determineExitCode (report : Report.t) (options : ExitOptions) : Z :=
  if failOnHigh options
     && existsb (fun v => severity_is "high" v || severity_is "critical" v)
                (Report.vulnerabilities report)
  then 1%Z
  else if failOnOutdated options
          && Nat.ltb 0 (List.length (Report.outdated report))
  then 1%Z
  else
    match threshold options with
    | Some t =>
        if Js.truthy t then
          let thresholdIndex := indexOf severityLevels (J (JStr t)) in
          if existsb (fun v =>
                        let vulnIndex := indexOf severityLevels (Vulnerability.severity v) in
                        (thresholdIndex <=? vulnIndex)%Z)
                     (Report.vulnerabilities report)
          then 1%Z else 0%Z
        else 0%Z
    | None => 0%Z
    end.

End cli.

(* ================================================================== *)
(** * Project detection (src/index.js, with [getProjectInfo] of both scanners) *)

Module detection.

(** The file system and the [path] module as the detection uses them. *)
Record Env : Type := mkEnv {
  cwd : string;
  path_join : string -> string -> string;
  path_basename : string -> string;
  access : string -> result unit;
  readFile : string -> result string;
  JSON_parse : string -> result json
}.

(** What [getProjectInfo] returns. *)
Record ProjectData : Type := mkProjectData {
  name : value;
  version : value;
  description : value
}.

(** [this.projectInfo]: empty at construction, then [type] and [file], then
    the project data spread over it. *)
Record ProjectInfo : Type := mkProjectInfo {
  type : option string;
  file : option string;
  data : option ProjectData
}.

Inductive ScannerClass : Type := NpmScannerClass | PythonScannerClass.

(** The fields of a [DependencyChecker] that detection writes. *)
Record Checker : Type := mkChecker {
  projectInfo : ProjectInfo;
  scanner : option ScannerClass
}.

(** [new DependencyChecker(options)] *)
Definition new_checker : Checker := mkChecker (mkProjectInfo None None None) None.

(** [v || d] *)
Definition or_default (v : value) (d : string) : value :=
  if JsObject.truthy v then v else J (JStr d).

(** [NpmScanner.getProjectInfo]; [name], [version] and [description] name no
    property of a built-in prototype of a JSON value. *)
Definition npm_getProjectInfo (env : Env) (projectPath : string) : result ProjectData :=
  content <- readFile env (path_join env projectPath "package.json") ;;
  packageJson <- JSON_parse env content ;;
  name <- JsObject.get (J packageJson) "name" ;;
  version <- JsObject.get (J packageJson) "version" ;;
  description <- JsObject.get (J packageJson) "description" ;;
  Ok (mkProjectData (or_default name "unnamed-project") (or_default version "0.0.0")
                    (or_default description "")).

(** [PythonScanner.getProjectInfo] *)
Definition python_getProjectInfo (env : Env) (projectPath : string) : result ProjectData :=
  Ok (mkProjectData (J (JStr (path_basename env projectPath))) (J (JStr "0.0.0"))
                    (J (JStr "Python project"))).

Definition getProjectInfo (env : Env) (class : ScannerClass) (projectPath : string)
  : result ProjectData :=
  match class with
  | NpmScannerClass => npm_getProjectInfo env projectPath
  | PythonScannerClass => python_getProjectInfo env projectPath
  end.

(** The table of [detectProjectType]. *)
Definition scanners : list (string * string * ScannerClass) :=
  [ ("npm", "package.json", NpmScannerClass);
    ("python", "requirements.txt", PythonScannerClass) ].

(** The loop of [detectProjectType]: the checker afterwards, and whether the
    method returned or threw.  The [catch] keeps what the [try] had assigned
    before it failed. *)
Fixpoint detect_from (env : Env) (table : list (string * string * ScannerClass))
         (this : Checker) : Checker * result unit :=
  match table with
  | [] =>
      (this,
       Throw (Error "Could not detect project type. No package.json or requirements.txt found."))
  | (name, file, class) :: rest =>
      match access env (path_join env (cwd env) file) with
      | Throw _ => detect_from env rest this
      | Ok _ =>
          let this :=
            mkChecker (mkProjectInfo (Some name) (Some file) (data (projectInfo this)))
                      (Some class) in
          match getProjectInfo env class (cwd env) with
          | Throw _ => detect_from env rest this
          | Ok projectData =>
              (mkChecker (mkProjectInfo (Some name) (Some file) (Some projectData))
                         (Some class),
               Ok tt)
          end
      end
  end.

Definition detectProjectType (env : Env) (this : Checker) : Checker * result unit :=
  detect_from env scanners this.

(** The guard of [scanDependencies], [checkOutdated], [checkVulnerabilities]
    and [applyFixes]. *)
Definition require_scanner (this : Checker) : result ScannerClass :=
  match scanner this with
  | Some class => Ok class
  | None => Throw (Error "Project type not detected. Run detectProjectType() first.")
  end.

End detection.

(* ================================================================== *)
(** * The specification's own wording, and the scenarios used below *)

(** "safe: true iff distance is patch or minor". *)
Definition safe_by_distance (distance : UpdateType) : bool :=
  match distance with
  | patch | minor => true
  | major | none | unknown => false
  end.

(** "latest.major > current.major => major; else latest.minor > current.minor
    => minor; else latest.patch > current.patch => patch; else => none". *)
Definition distance_by_triples (current latest : semver.SemVer) : UpdateType :=
  if (semver.major current <? semver.major latest)%N then major
  else if (semver.minor current <? semver.minor latest)%N then minor
  else if (semver.patch current <? semver.patch latest)%N then patch
  else none.

(** What the analyzer appends to [outdated] for one dependency. *)
Definition emitted {M} (scanner : Scanner M) (dep : Dependency.t)
  : list OutdatedPackage.t :=
  match outdated.try_body scanner dep [] with
  | Ok candidates => candidates
  | Throw _ => []
  end.

(** A registry that knows the packages of a table and rejects every other
    name. *)
Definition registry_of (table : list (string * string)) (packageName : string)
  : result (option string) :=
  match JsObject.own packageName table with
  | Some latest => Ok (Some latest)
  | None => Throw (Error ("Package " ++ packageName ++ " not found in registry"))
  end.

(** requirements.txt pins django 4.2.1; PyPI publishes 5.0. *)
Definition django_requirements : string := "django==4.2.1".
Definition pypi : string -> result (option string) := registry_of [("django", "5.0")].
Definition django : Dependency.t :=
  Dependency.mk "django" "==4.2.1" (Some "4.2.1") production None.
Definition django_candidate : OutdatedPackage.t :=
  OutdatedPackage.mk "django" "4.2.1" "==4.2.1" "5.0" production unknown true false.

(** express 4.18.2 is installed; the registry's latest tag is at 4.18.0. *)
Definition express_ahead : Dependency.t :=
  Dependency.mk "express" "^4.18.2" None production (Some "4.18.2").
Definition lagging_registry : string -> result (option string) :=
  registry_of [("express", "4.18.0")].

(** express 4.18.2 is installed and is the registry's latest. *)
Definition express_current : Dependency.t :=
  Dependency.mk "express" "^4.18.2" None production (Some "4.18.2").
Definition current_registry : string -> result (option string) :=
  registry_of [("express", "4.18.2")].

(** The dependencies of the analyzer's tests. *)
Definition express : Dependency.t :=
  Dependency.mk "express" "^4.17.1" None production (Some "4.17.1").
Definition invalid_package : Dependency.t :=
  Dependency.mk "invalid-package" "1.0.0" None production (Some "1.0.0").
Definition lodash : Dependency.t :=
  Dependency.mk "lodash" "~4.17.15" None production (Some "4.17.15").
Definition npm_registry : string -> result (option string) :=
  registry_of [("express", "4.18.2"); ("lodash", "4.17.21"); ("chalk", "5.0.0")].

(** The operators of the specification's operator-preservation property. *)
Definition claimed_operators : list string := ["^"; "~"; ">="; ">"; "<="; "<"; ""].

(** The text after the operator starts with none of the characters that
    operators are made of. *)
Definition head_is_range_char (s : string) : bool :=
  match s with
  | String c _ => outdated.is_range_char c
  | EmptyString => false
  end.

(** The characters that a package name and a version number of a
    requirements line are free of: white space, the characters of the python
    operators, and the comment marker. *)
Definition special (c : ascii) : bool :=
  Js.is_whitespace c
  || (Ascii.eqb c ">" || Ascii.eqb c "<" || Ascii.eqb c "=" || Ascii.eqb c "!"
      || Ascii.eqb c "~")
  || Ascii.eqb c "#".

Definition plain (s : string) : bool := Js.all_chars (fun c => negb (special c)) s.


(** The update of the scanner's test: lodash to 4.17.21. *)
Definition lodash_update : OutdatedPackage.t :=
  OutdatedPackage.mk "lodash" "4.17.15" "~4.17.15" "4.17.21" production patch true false.
Definition express_update : OutdatedPackage.t :=
  OutdatedPackage.mk "express" "4.17.1" "^4.17.1" "4.18.2" production minor true false.

(** The manifest of the scanner's test. *)
Definition test_manifest : PackageJson :=
  mkPackageJson (Some [("express", "^4.17.1"); ("lodash", "~4.17.15")]) None [].
Definition django_update : OutdatedPackage.t :=
  OutdatedPackage.mk "django" "4.2.1" "==4.2.1" "4.2.9" production patch true false.

(** [updates.find(u => u.name === name)] *)
Definition find_update (updates : list OutdatedPackage.t) (name : string)
  : option OutdatedPackage.t :=
  find (fun u => String.eqb (OutdatedPackage.name u) name) updates.

(** "critical->critical, high->high, medium->moderate, moderate->moderate,
    low->low; any unrecognized label maps to moderate", on a label already in
    lower case. *)
Definition level_of (label : string) : string :=
  if String.eqb label "critical" then "critical"
  else if String.eqb label "high" then "high"
  else if String.eqb label "medium" then "moderate"
  else if String.eqb label "moderate" then "moderate"
  else if String.eqb label "low" then "low"
  else "moderate".

(** An audit report with one advisory [via] for one package, whose record
    holds [info]. *)
Definition audit_report (packageName : string) (info via : list (string * json)) : json :=
  JObj [("vulnerabilities",
         JObj [(packageName, JObj (("via", JArr [JObj via]) :: info))])].

(** What a read of an own property yields. *)
Definition read (key : string) (fields : list (string * json)) : value :=
  match JsObject.own key fields with
  | Some j => J j
  | None => Undefined
  end.


(** The entry of a package in a section of the manifest, if any. *)
Definition entry (packageJson : PackageJson) (s : NpmScanner.Section) (name : string)
  : option string :=
  match NpmScanner.section_of packageJson s with
  | Some entries => JsObject.own name entries
  | None => None
  end.

(** The keys of a section, in order, if the section is there. *)
Definition keys (packageJson : PackageJson) (s : NpmScanner.Section)
  : option (list string) :=
  option_map (map fst) (NpmScanner.section_of packageJson s).

(** The version that the analyzer takes as current:
    [dep.installed || parseVersion(dep.version)]. *)
Definition current_version (dep : Dependency.t) : option string :=
  Js.or_else (Dependency.installed dep) (outdated.parseVersion (Dependency.version dep)).

(** The object that the analyzer pushes for [dep], given the two versions. *)
Definition candidate_of (dep : Dependency.t) (current latest : string)
  : OutdatedPackage.t :=
  let updateType := outdated.getUpdateType current latest in
  OutdatedPackage.mk (Dependency.name dep) current (Dependency.version dep) latest
    (Dependency.type dep) updateType
    (negb (UpdateType_eqb updateType major)) (UpdateType_eqb updateType major).

(** The order of semantic versioning on (major, minor, patch). *)
Definition triple_lt (a b : semver.SemVer) : Prop :=
  (semver.major a < semver.major b)%N
  \/ (semver.major a = semver.major b
      /\ ((semver.minor a < semver.minor b)%N
          \/ (semver.minor a = semver.minor b
              /\ (semver.patch a < semver.patch b)%N))).

(** The first component in which two versions differ, as a distance. *)
Definition first_difference (a b : semver.SemVer) : UpdateType :=
  if negb (semver.major a =? semver.major b)%N then major
  else if negb (semver.minor a =? semver.minor b)%N then minor
  else if negb (semver.patch a =? semver.patch b)%N then patch
  else none.

(** The entry that an update addresses: its section and its package name. *)
Definition update_key (update : OutdatedPackage.t) : NpmScanner.Section * string :=
  (NpmScanner.targetSection update, OutdatedPackage.name update).

(** A line that [scan] and [applyUpdates] of the python scanner pass over:
    blank, or a comment. *)
Definition skipped_line (line : string) : bool :=
  negb (Js.truthy (Js.trim line)) || Js.startsWith (Js.trim line) "#".

(** The rank of a severity level in [low < moderate < high < critical]. *)
Definition rank (level : string) : option nat :=
  if String.eqb level "low" then Some 0
  else if String.eqb level "moderate" then Some 1
  else if String.eqb level "high" then Some 2
  else if String.eqb level "critical" then Some 3
  else None.

(** The rank of the severity of a finding, when it is one of the four. *)
Definition severity_rank (v : Vulnerability.t) : option nat :=
  match Vulnerability.severity v with
  | J (JStr s) => rank s
  | _ => None
  end.

(** A project directory where package.json is there but unreadable as JSON,
    and requirements.txt is missing. *)
Definition broken_npm_project : detection.Env :=
  detection.mkEnv "/app" (fun a b => a ++ "/" ++ b) (fun _ => "app")
    (fun path => if String.eqb path "/app/package.json" then Ok tt
                 else Throw (Error "ENOENT"))
    (fun _ => Ok "{")
    (fun _ => Throw (Error "Unexpected end of JSON input")).

(** A project directory with both manifests, package.json holding [{}]. *)
Definition mixed_project : detection.Env :=
  detection.mkEnv "/app" (fun a b => a ++ "/" ++ b) (fun _ => "app")
    (fun _ => Ok tt) (fun _ => Ok "{}") (fun _ => Ok (JObj [])).

(** The operator that the python [applyUpdates] writes for a parsed line. *)
Definition written_operator (dependency : PythonScanner.Parsed) : string :=
  match PythonScanner.extractOperator (PythonScanner.version dependency) with
  | Some op => op
  | None => "=="
  end.

(** A line after the python [applyUpdates]: the line itself, or, for a
    requirement whose package an update names, name, operator and latest
    version. *)
Definition rewritten (updates : list OutdatedPackage.t) (line line' : string) : Prop :=
  line' = line
  \/ (skipped_line line = false
      /\ exists dependency update,
          PythonScanner.parseDependency (Js.trim line) = Ok dependency
          /\ find_update updates (PythonScanner.name dependency) = Some update
          /\ line' = PythonScanner.name dependency ++ written_operator dependency
                     ++ OutdatedPackage.latest update).

(** No update names the package of the line. *)
Definition unaddressed (updates : list OutdatedPackage.t) (line : string) : Prop :=
  skipped_line line = true
  \/ forall dependency,
      PythonScanner.parseDependency (Js.trim line) = Ok dependency ->
      find_update updates (PythonScanner.name dependency) = None.

(** A requirements file with a comment, a blank line and two requirements. *)
Definition sample_requirements : string :=
  "# web" ++ PythonScanner.newline ++ "django==4.2.1" ++ PythonScanner.newline
  ++ PythonScanner.newline ++ "requests>=2.0".

(** What one dependency contributes to the result of [check], written out:
    nothing when the lookup rejects, resolves to no version, or no current
    version is there; nothing when one of the two versions is empty or the
    two are the same string; and otherwise the one candidate. *)
Definition classified {M} (scanner : Scanner M) (dep : Dependency.t)
  : list OutdatedPackage.t :=
  match getLatestVersion scanner (Dependency.name dep), current_version dep with
  | Ok (Some latest), Some current =>
      if Js.truthy current && Js.truthy latest && negb (String.eqb current latest)
      then [candidate_of dep current latest]
      else []
  | _, _ => []
  end.


(** A record of the vulnerability feed whose severity is a string label
    that, in lower case, names no inherited member. *)
Definition rated (record : json) : bool :=
  match record with
  | JObj fields =>
      match JsObject.own "severity" fields with
      | Some (JStr label) => negb (JsObject.inherited (Js.toLowerCase label))
      | _ => false
      end
  | _ => false
  end.

(** The finding that the specification's table gives for a record of the
    feed: the level of the lower-cased label, and the other fields as they
    are. *)
Definition finding_of (package : string) (record : json) : Vulnerability.t :=
  match record with
  | JObj fields =>
      Vulnerability.mk package
        (match JsObject.own "severity" fields with
         | Some (JStr label) => J (JStr (level_of (Js.toLowerCase label)))
         | _ => Undefined
         end)
        (read "advisory" fields) Undefined Undefined Undefined
        (read "cve" fields) (read "specs" fields) (read "fixed_in" fields)
  | _ =>
      Vulnerability.mk package Undefined Undefined Undefined Undefined Undefined
                       Undefined Undefined Undefined
  end.

(** The address of the vulnerability feed for a dependency. *)
Definition feed_url (dep : Dependency.t) : string :=
  "https://pyup.io/api/v1/safety/" ++ Dependency.name dep.

(** buffer is installed as 1.2.3+build.5; left-pad is declared as >= 1.2.3
    and not installed; the registry's latest of both is 1.2.3. *)
Definition build_tagged : Dependency.t :=
  Dependency.mk "buffer" "^1.2.3" None production (Some "1.2.3+build.5").
Definition spaced_range : Dependency.t :=
  Dependency.mk "left-pad" ">= 1.2.3" None production None.
Definition same_version_registry : string -> result (option string) :=
  registry_of [("left-pad", "1.2.3"); ("buffer", "1.2.3")].

(** The findings that the specification's table gives for the feed of one
    dependency. *)
Definition findings_of (axios_get : string -> result json) (dep : Dependency.t)
  : list Vulnerability.t :=
  match axios_get (feed_url dep) with
  | Ok (JObj fields) =>
      match JsObject.own "vulnerabilities" fields with
      | Some (JArr items) => map (finding_of (Dependency.name dep)) items
      | _ => []
      end
  | _ => []
  end.

(** The feed of a dependency fails, or answers with an object whose
    vulnerabilities are an array of rated records. *)
Definition rated_feed (axios_get : string -> result json) (dep : Dependency.t) : bool :=
  match axios_get (feed_url dep) with
  | Ok (JObj fields) =>
      match JsObject.own "vulnerabilities" fields with
      | Some (JArr items) => forallb rated items
      | _ => false
      end
  | Ok _ => false
  | Throw _ => true
  end.

(** A finding made from a record of the feed of one of the dependencies:
    an object of the array of vulnerabilities whose severity is a string
    label, with the severity that [mapSeverity] gives for the label. *)
Definition from_feed (axios_get : string -> result json)
           (dependencies : list Dependency.t) (finding : Vulnerability.t) : Prop :=
  exists dep data items fields label,
    In dep dependencies
    /\ axios_get (feed_url dep) = Ok data
    /\ JsObject.get (J data) "vulnerabilities" = Ok (J (JArr items))
    /\ In (JObj fields) items
    /\ JsObject.own "severity" fields = Some (JStr label)
    /\ PythonScanner.mapSeverity (J (JStr label)) = Ok (Vulnerability.severity finding)
    /\ finding
       = Vulnerability.mk (Dependency.name dep) (Vulnerability.severity finding)
           (read "advisory" fields) Undefined Undefined Undefined
           (read "cve" fields) (read "specs" fields) (read "fixed_in" fields).



(** chalk of the analyzer's tests. *)
Definition chalk : Dependency.t :=
  Dependency.mk "chalk" "^4.1.2" None production (Some "4.1.2").

(** A feed with two records for django, and a requirements file of three
    lines. *)
Definition django_feed (url : string) : result json :=
  if String.eqb url "https://pyup.io/api/v1/safety/django"
  then Ok (JObj [("vulnerabilities",
                  JArr [JObj [("severity", JStr "HIGH"); ("advisory", JStr "SQL injection")];
                        JObj [("severity", JStr "Medium"); ("cve", JStr "CVE-2023-1")]])])
  else Throw (Error "Request failed with status code 404").

(* ================================================================== *)
(** * The update classifier *)

Section Classifier.

Context {M : Type} (scanner : Scanner M) (options : Options).

Lemma try_body_appends (dep : Dependency.t) (outdated : list OutdatedPackage.t) :
  outdated.try_body scanner dep outdated =
  match outdated.try_body scanner dep [] with
  | Ok candidates => Ok (outdated ++ candidates)%list
  | Throw e => Throw e
  end.
Proof.
  unfold outdated.try_body.
  destruct (getLatestVersion scanner (Dependency.name dep)) as [latest|e]; simpl; auto.
  destruct (Js.or_else _ _) as [cur|]; simpl.
  - destruct latest as [lat|]; simpl.
    + destruct (Js.truthy cur && Js.truthy lat && negb (cur =? lat)); simpl; auto.
      now rewrite app_nil_r.
    + now rewrite app_nil_r.
  - now rewrite app_nil_r.
Qed.

Lemma iteration_appends (dep : Dependency.t) (outdated : list OutdatedPackage.t) :
  outdated.iteration scanner options dep outdated
  = Ok (outdated ++ emitted scanner dep)%list.
Proof.
  unfold outdated.iteration, emitted. rewrite try_body_appends.
  destruct (outdated.try_body scanner dep []); simpl; auto.
  rewrite app_nil_r. now destruct (verbose options).
Qed.

Lemma check_from_appends (dependencies : list Dependency.t) :
  forall outdated,
    outdated.check_from scanner options dependencies outdated
    = Ok (outdated ++ flat_map (emitted scanner) dependencies)%list.
Proof.
  induction dependencies as [|dep rest IH]; intros outdated; simpl.
  - now rewrite app_nil_r.
  - rewrite iteration_appends. simpl. rewrite IH. now rewrite app_assoc.
Qed.

Lemma check_flat_map (dependencies : list Dependency.t) :
  outdated.check dependencies scanner options
  = Ok (flat_map (emitted scanner) dependencies).
Proof. unfold outdated.check. now rewrite check_from_appends. Qed.

Lemma emitted_failed_lookup (dep : Dependency.t) (e : error) :
  getLatestVersion scanner (Dependency.name dep) = Throw e ->
  emitted scanner dep = [].
Proof.
  intros H. unfold emitted, outdated.try_body. now rewrite H.
Qed.

(** Every emitted candidate has [safe] and [breaking] computed from its
    [updateType] by comparison with ['major']. *)
Lemma emitted_flags (dep : Dependency.t) (c : OutdatedPackage.t) :
  In c (emitted scanner dep) ->
  OutdatedPackage.safe c = negb (UpdateType_eqb (OutdatedPackage.updateType c) major)
  /\ OutdatedPackage.breaking c = UpdateType_eqb (OutdatedPackage.updateType c) major.
Proof.
  unfold emitted, outdated.try_body.
  destruct (getLatestVersion scanner (Dependency.name dep)) as [latest|e]; simpl;
    [|tauto].
  destruct (Js.or_else _ _) as [cur|]; simpl; [|tauto].
  destruct latest as [lat|]; simpl; [|tauto].
  destruct (Js.truthy cur && Js.truthy lat && negb (cur =? lat)); simpl; [|tauto].
  intros [<-|[]]. simpl. auto.
Qed.

End Classifier.

(** The distance of two versions that parse is the one the priority order
    on their triples gives; a version that does not parse gives 'unknown'. *)
Lemma getUpdateType_spec (current latest : string) :
  outdated.getUpdateType current latest =
  match semver.parse current, semver.parse latest with
  | Some c, Some l => distance_by_triples c l
  | _, _ => unknown
  end.
Proof.
  unfold outdated.getUpdateType, semver.valid, distance_by_triples.
  destruct (semver.parse current) as [c|]; simpl; auto.
  destruct (semver.parse latest) as [l|]; simpl; auto.
Qed.

(** C1: the analyzer marks a candidate of distance 'unknown' as safe.
    requirements.txt pins django==4.2.1 and PyPI answers 5.0, which is no
    semantic version: the candidate has updateType 'unknown' and safe true,
    where the specification's rule (patch or minor only) gives false. *)
Theorem unknown_distance_is_marked_safe :
  outdated.check [django] (PythonScanner.scanner pypi) default_options
  = Ok [django_candidate]
  /\ OutdatedPackage.updateType django_candidate = unknown
  /\ OutdatedPackage.safe django_candidate = true
  /\ safe_by_distance (OutdatedPackage.updateType django_candidate) = false.
Proof. now vm_compute. Qed.

(** C3: applyFixes hands a candidate of distance 'unknown' to the manifest
    rewrite.  The line django==4.2.1 is scanned, classified 'unknown' against
    PyPI's 5.0, kept by the filter on safe and breaking, and rewritten to
    django==5.0. *)
Theorem applyFixes_rewrites_unknown_distance :
  PythonScanner.scan default_options django_requirements = Ok [django]
  /\ outdated.check [django] (PythonScanner.scanner pypi) default_options
     = Ok [django_candidate]
  /\ DependencyChecker.safeUpdates [django_candidate] = [django_candidate]
  /\ DependencyChecker.applyFixes (Some (PythonScanner.scanner pypi))
       [django_candidate] django_requirements
     = Ok "django==5.0".
Proof. now vm_compute. Qed.

(** C5: the analyzer emits a candidate of distance 'none'.  express 4.18.2 is
    installed and the registry's latest is 4.18.0: the two strings differ, no
    component of the latest version is greater, and the candidate is pushed
    with updateType 'none'. *)
Theorem none_distance_is_emitted :
  outdated.check [express_ahead] (NpmScanner.scanner lagging_registry) default_options
  = Ok [OutdatedPackage.mk "express" "4.18.2" "^4.18.2" "4.18.0" production
          none true false].
Proof. now vm_compute. Qed.

(* ================================================================== *)
(** * Strings *)



Lemma plain_cons (c : ascii) (s : string) :
  plain (String c s) = true -> special c = false /\ plain s = true.
Proof.
  unfold plain. simpl. intros [Hc Hs]%andb_prop. split; auto.
  now apply negb_true_iff.
Qed.

(** A special character differs from every character of a plain string. *)
Lemma special_differs (c d : ascii) :
  special c = true -> special d = false -> Ascii.eqb c d = false.
Proof.
  intros Hc Hd. destruct (Ascii.eqb_spec c d) as [->|]; congruence.
Qed.

Lemma startsWith_plain (s : string) (c : ascii) (p : string) :
  plain s = true -> special c = true -> Js.startsWith s (String c p) = false.
Proof.
  intros Hs Hc. destruct s as [|d s]; simpl; auto.
  apply plain_cons in Hs as [Hd _]. now rewrite (special_differs c d).
Qed.

Lemma includes_plain (s : string) (c : ascii) (p : string) :
  plain s = true -> special c = true -> Js.includes s (String c p) = false.
Proof.
  intros Hs Hc. induction s as [|d s IH]; auto.
  change (Js.includes (String d s) (String c p))
    with (Js.startsWith (String d s) (String c p) || Js.includes s (String c p)).
  rewrite startsWith_plain by assumption.
  apply plain_cons in Hs as [_ Hs]. now rewrite IH.
Qed.

Lemma includes_app_plain (name s : string) (c : ascii) (p : string) :
  plain name = true -> special c = true ->
  Js.includes (name ++ s) (String c p) = Js.includes s (String c p).
Proof.
  intros Hn Hc. induction name as [|d name IH]; auto.
  apply plain_cons in Hn as [Hd Hn].
  change (Js.includes (String d name ++ s) (String c p))
    with (Js.startsWith (String d (name ++ s)) (String c p)
          || Js.includes (name ++ s) (String c p)).
  simpl Js.startsWith. rewrite (special_differs c d) by assumption.
  simpl. now apply IH.
Qed.

Lemma split_from_plain (s : string) (c : ascii) (p : string) :
  plain s = true -> special c = true -> Js.split_from (String c p) 0 s = [s].
Proof.
  intros Hs Hc. induction s as [|d s IH]; auto.
  pose proof (startsWith_plain _ c p Hs Hc) as Hsw.
  apply plain_cons in Hs as [_ Hs].
  change (Js.split_from (String c p) 0 (String d s))
    with (if Js.startsWith (String d s) (String c p)
          then EmptyString :: Js.split_from (String c p) (String.length (String c p) - 1) s
          else match Js.split_from (String c p) 0 s with
               | q :: qs => String d q :: qs
               | [] => [String d EmptyString]
               end).
  rewrite Hsw, IH; auto.
Qed.

Lemma split_from_nonempty (sep : string) (s : string) :
  forall skip, Js.split_from sep skip s <> [].
Proof.
  induction s as [|d s IH]; intros skip; simpl; [discriminate|].
  destruct skip; auto.
  match goal with |- (if ?b then _ else _) <> _ => destruct b end; [discriminate|].
  now destruct (Js.split_from sep 0 s).
Qed.

Lemma split_from_app_plain (name s : string) (c : ascii) (p : string) :
  plain name = true -> special c = true ->
  Js.split_from (String c p) 0 (name ++ s) =
  match Js.split_from (String c p) 0 s with
  | q :: qs => (name ++ q) :: qs
  | [] => []
  end.
Proof.
  intros Hn Hc. induction name as [|d name IH].
  - simpl. now destruct (Js.split_from (String c p) 0 s).
  - apply plain_cons in Hn as [Hd Hn].
    change (Js.split_from (String c p) 0 (String d name ++ s))
      with (if Js.startsWith (String d (name ++ s)) (String c p)
            then EmptyString
                 :: Js.split_from (String c p) (String.length (String c p) - 1) (name ++ s)
            else match Js.split_from (String c p) 0 (name ++ s) with
                 | q :: qs => String d q :: qs
                 | [] => [String d EmptyString]
                 end).
    simpl Js.startsWith. rewrite (special_differs c d) by assumption.
    simpl andb. cbv iota. rewrite IH by assumption.
    pose proof (split_from_nonempty (String c p) s 0) as Hne.
    now destruct (Js.split_from (String c p) 0 s).
Qed.







(* ================================================================== *)
(** * Objects as ordered entries *)

Section Entries.

Context {A : Type}.
Implicit Types (entries : list (string * A)) (key : string).

Lemma own_assign_same key (v w : A) entries :
  JsObject.own key entries = Some w ->
  JsObject.own key (JsObject.assign key v entries) = Some v.
Proof.
  induction entries as [|[k x] entries IH]; simpl; [discriminate|].
  destruct (String.eqb key k) eqn:E; simpl; rewrite E; auto.
Qed.

Lemma own_assign_other key key' (v : A) entries :
  key' <> key ->
  JsObject.own key' (JsObject.assign key v entries) = JsObject.own key' entries.
Proof.
  intros Hne. induction entries as [|[k x] entries IH]; simpl; auto.
  destruct (String.eqb key k) eqn:E; simpl.
  - apply String.eqb_eq in E. subst k.
    destruct (String.eqb_spec key' key); [contradiction|reflexivity].
  - now rewrite IH.
Qed.

Lemma keys_assign key (v : A) entries :
  map fst (JsObject.assign key v entries) = map fst entries.
Proof.
  induction entries as [|[k x] entries IH]; simpl; auto.
  destruct (String.eqb key k); simpl; congruence.
Qed.

Lemma assign_absent key (v : A) entries :
  JsObject.own key entries = None -> JsObject.assign key v entries = entries.
Proof.
  induction entries as [|[k x] entries IH]; simpl; auto.
  destruct (String.eqb key k); [discriminate|]. intros H. now rewrite IH.
Qed.

End Entries.

(* ================================================================== *)
(** * Constraint operators *)

(** Characters are compared only once both are known. *)
#[local] Arguments Ascii.eqb !a !b.

Ltac head_not_operator H :=
  repeat match goal with
         | |- context [Ascii.eqb ?a ?c] =>
             is_var c;
             destruct (Ascii.eqb_spec a c) as [<-|?];
             [simpl in H; discriminate H|]; simpl
         end.

Lemma getVersionPrefix_operator (op rest : string) :
  In op claimed_operators -> head_is_range_char rest = false ->
  NpmScanner.getVersionPrefix (op ++ rest) = op.
Proof.
  intros Hin Hrest. unfold claimed_operators in Hin. simpl in Hin.
  unfold NpmScanner.getVersionPrefix.
  repeat (destruct Hin as [<-|Hin]; [destruct rest as [|c r]; simpl; auto;
                                     head_not_operator Hrest; reflexivity|]).
  contradiction.
Qed.

Lemma startsWith_empty (s : string) : Js.startsWith s "" = true.
Proof. now destruct s. Qed.

(** The prefix test is unfolded only on a string whose head is known. *)
#[local] Arguments Js.startsWith !s !p.

Ltac plain_steps :=
  repeat (simpl; unfold Js.split;
          rewrite ?includes_app_plain, ?includes_plain, ?startsWith_plain,
                  ?split_from_app_plain, ?split_from_plain, ?startsWith_empty
            by (assumption || reflexivity)).





Lemma split_requirement_line (name op rest : string) :
  In op PythonScanner.operators -> plain name = true -> plain rest = true ->
  Js.split (name ++ op ++ rest) PythonScanner.newline = [name ++ op ++ rest].
Proof.
  intros Hin Hn Hr. unfold PythonScanner.operators in Hin. simpl in Hin.
  unfold PythonScanner.newline.
  repeat (destruct Hin as [<-|Hin]; [plain_steps; reflexivity|]).
  contradiction.
Qed.





(* ================================================================== *)
(** * Severities *)

Lemma mapSeverity_level (label : string) :
  JsObject.inherited (Js.toLowerCase label) = false ->
  PythonScanner.mapSeverity (J (JStr label))
  = Ok (J (JStr (level_of (Js.toLowerCase label)))).
Proof.
  intros Hin. unfold PythonScanner.mapSeverity, level_of.
  unfold PythonScanner.severityMap. cbn [JsObject.own].
  repeat match goal with
         | |- context [String.eqb ?a ?b] => destruct (String.eqb a b); [reflexivity|]
         end.
  now rewrite Hin.
Qed.

Lemma level_of_in_taxonomy (label : string) :
  in_taxonomy (J (JStr (level_of label))) = true.
Proof.
  unfold level_of.
  repeat match goal with
         | |- context [String.eqb ?a ?b] => destruct (String.eqb a b); [reflexivity|]
         end.
  reflexivity.
Qed.

Lemma parseAuditResults_copies_severity packageName info via (title : json) :
  JsObject.own "title" via = Some title -> JsObject.truthy_json title = true ->
  NpmScanner.parseAuditResults (audit_report packageName info via)
  = Ok [Vulnerability.mk packageName (read "severity" info) (J title)
          (read "url" via) (read "range" info) (read "fixAvailable" info)
          Undefined Undefined Undefined].
Proof.
  intros Htitle Htruthy. unfold NpmScanner.parseAuditResults, audit_report, read.
  cbn. rewrite Htitle. cbn. rewrite Htruthy.
  destruct (JsObject.own "severity" info), (JsObject.own "url" via),
    (JsObject.own "range" info), (JsObject.own "fixAvailable" info); reflexivity.
Qed.

(** The rows of the table, an unknown label, and two case variants. *)
Lemma mapSeverity_examples :
  map (fun label => PythonScanner.mapSeverity (J (JStr label)))
      ["critical"; "high"; "medium"; "moderate"; "low"; "negligible"; "Medium"; "HIGH"]
  = map (fun level => Ok (J (JStr level)))
        ["critical"; "high"; "moderate"; "moderate"; "low"; "moderate"; "moderate"; "high"].
Proof. reflexivity. Qed.

(** C7, as the specification has it, fails twice: the case-varied label
    HIGH maps to high and not to moderate, and the npm scanner reports the
    audit tool's level info, which is none of the four. *)
Lemma case_varied_label_keeps_its_level :
  PythonScanner.mapSeverity (J (JStr "HIGH")) = Ok (J (JStr "high"))
  /\ PythonScanner.mapSeverity (J (JStr "HIGH")) <> Ok (J (JStr "moderate"))
  /\ NpmScanner.parseAuditResults
       (audit_report "debug" [("severity", JStr "info")] [("title", JStr "ReDoS")])
     = Ok [Vulnerability.mk "debug" (J (JStr "info")) (J (JStr "ReDoS"))
             Undefined Undefined Undefined Undefined Undefined Undefined]
  /\ in_taxonomy (J (JStr "info")) = false.
Proof. repeat split; try reflexivity. discriminate. Qed.

(* ================================================================== *)
(** * The filters of the dependency listing *)






(* ================================================================== *)
(** * Vulnerability lookups *)

Lemma python_getVulnerabilities_from_returns axios_get dependencies :
  forall vulnerabilities,
  exists findings,
    PythonScanner.getVulnerabilities_from axios_get dependencies vulnerabilities
    = Ok findings.
Proof.
  induction dependencies as [|dep rest IH]; intros vulnerabilities; simpl.
  - now exists vulnerabilities.
  - destruct (PythonScanner.try_body axios_get dep vulnerabilities)
      as [vulnerabilities' outcome].
    destruct outcome as [[]|e]; simpl; apply IH.
Qed.

Lemma npm_getVulnerabilities_returns execAsync JSON_parse dependencies :
  exists findings,
    NpmScanner.getVulnerabilities execAsync JSON_parse dependencies = Ok findings.
Proof.
  unfold NpmScanner.getVulnerabilities.
  destruct (out <- execAsync "npm audit --json" ;;
            auditData <- JSON_parse out ;;
            NpmScanner.parseAuditResults auditData) as [found|e]; simpl.
  - now exists found.
  - destruct (Js.truthy_opt (stdout e)); [|now exists []].
    match goal with |- context [try_catch ?body _] => destruct body as [found|e'] end;
      simpl; eauto.
Qed.

(** The parts that the two operations guard do throw: on an audit report
    that is [null] or holds a [null] advisory, on a feed whose vulnerabilities
    are no array, on a record without a severity. *)
Lemma guarded_parts_throw :
  NpmScanner.parseAuditResults JNull
  = Throw (TypeError "Cannot read properties of null (reading 'vulnerabilities')")
  /\ NpmScanner.parseAuditResults
       (JObj [("vulnerabilities", JObj [("lodash", JObj [("via", JArr [JNull])])])])
     = Throw (TypeError "Cannot read properties of null (reading 'title')")
  /\ PythonScanner.mapSeverity Undefined
     = Throw (TypeError "Cannot read properties of undefined (reading 'toLowerCase')")
  /\ snd (PythonScanner.try_body
            (fun _ => Ok (JObj [("vulnerabilities", JStr "none")])) django [])
     = Throw (TypeError "response.data.vulnerabilities.forEach is not a function").
Proof. repeat split. Qed.

(** C9: whatever the audit command, the JSON parser and the vulnerability
    feed do (resolve, reject, or hand out malformed records), both
    [getVulnerabilities] return a list and throw nothing. *)
Theorem getVulnerabilities_never_throws :
  (forall execAsync JSON_parse dependencies,
      exists findings,
        NpmScanner.getVulnerabilities execAsync JSON_parse dependencies = Ok findings)
  /\ (forall axios_get dependencies,
        exists findings,
          PythonScanner.getVulnerabilities axios_get dependencies = Ok findings).
Proof.
  split.
  - apply npm_getVulnerabilities_returns.
  - intros axios_get dependencies.
    apply python_getVulnerabilities_from_returns.
Qed.

(* ================================================================== *)
(** * The frame of the npm manifest rewrite *)

Lemma section_of_with_section packageJson (s s' : NpmScanner.Section) entries :
  NpmScanner.section_of (NpmScanner.with_section packageJson s entries) s'
  = match s, s' with
    | NpmScanner.dependencies_section, NpmScanner.dependencies_section
    | NpmScanner.devDependencies_section, NpmScanner.devDependencies_section =>
        Some entries
    | _, _ => NpmScanner.section_of packageJson s'
    end.
Proof. now destruct s, s'. Qed.

(** One update leaves alone the other fields, the keys of both sections, and
    every entry but the one it names in its own section. *)
Lemma apply_update_frame packageJson update written :
  NpmScanner.apply_update packageJson update = Ok written ->
  other_fields written = other_fields packageJson
  /\ (forall s, keys written s = keys packageJson s)
  /\ (forall s name,
        NpmScanner.targetSection update <> s \/ OutdatedPackage.name update <> name ->
        entry written s name = entry packageJson s name).
Proof.
  unfold NpmScanner.apply_update.
  destruct (NpmScanner.section_of packageJson (NpmScanner.targetSection update))
    as [entries|] eqn:Hsec.
  2:{ intros [= <-]. auto. }
  destruct (JsObject.own (OutdatedPackage.name update) entries) as [versionString|].
  2:{ destruct (JsObject.inherited (OutdatedPackage.name update)); [discriminate|].
      intros [= <-]. auto. }
  destruct (Js.truthy versionString); [|intros [= <-]; auto].
  intros [= <-]. split; [|split].
  - now destruct (NpmScanner.targetSection update).
  - intros s. unfold keys. rewrite section_of_with_section.
    destruct (NpmScanner.targetSection update), s; try reflexivity;
      simpl in *; rewrite Hsec; simpl; now rewrite keys_assign.
  - intros s name Hother. unfold entry. rewrite section_of_with_section.
    destruct (NpmScanner.targetSection update), s; try reflexivity;
      simpl in *; rewrite Hsec;
      (destruct Hother as [Hs|Hname]; [congruence|]);
      apply own_assign_other; congruence.
Qed.

Lemma apply_update_absent packageJson update :
  entry packageJson (NpmScanner.targetSection update) (OutdatedPackage.name update) = None ->
  NpmScanner.apply_update packageJson update
  = if JsObject.inherited (OutdatedPackage.name update)
       && match NpmScanner.section_of packageJson (NpmScanner.targetSection update) with
          | Some _ => true
          | None => false
          end
    then Throw (TypeError "versionString.startsWith is not a function")
    else Ok packageJson.
Proof.
  unfold entry, NpmScanner.apply_update.
  destruct (NpmScanner.section_of packageJson (NpmScanner.targetSection update))
    as [entries|].
  - intros ->. now rewrite andb_true_r.
  - intros _. now rewrite andb_false_r.
Qed.

(** C10: the manifest that [applyUpdates] writes has the other fields of the
    manifest it read, the same sections with the same keys in the same order,
    and the same constraint for every package that no update names in the
    section of its type; and an update that names a package absent from the
    section of its type changes nothing: whatever is written is the manifest
    that was read. *)
Theorem applyUpdates_frame :
  (forall updates packageJson written,
      NpmScanner.applyUpdates updates packageJson = Ok written ->
      other_fields written = other_fields packageJson
      /\ (forall s, keys written s = keys packageJson s)
      /\ (forall s name,
            (forall update, In update updates ->
                            NpmScanner.targetSection update <> s
                            \/ OutdatedPackage.name update <> name) ->
            entry written s name = entry packageJson s name))
  /\ (forall update packageJson written,
        entry packageJson (NpmScanner.targetSection update)
              (OutdatedPackage.name update) = None ->
        NpmScanner.applyUpdates [update] packageJson = Ok written ->
        written = packageJson)
  /\ (forall update packageJson,
        entry packageJson (NpmScanner.targetSection update)
              (OutdatedPackage.name update) = None ->
        JsObject.inherited (OutdatedPackage.name update) = false ->
        NpmScanner.applyUpdates [update] packageJson = Ok packageJson).
Proof.
  split; [|split].
  - induction updates as [|update rest IH]; intros packageJson written; simpl.
    + intros [= <-]. auto.
    + destruct (NpmScanner.apply_update packageJson update) as [middle|e] eqn:Hstep;
        simpl; [|discriminate].
      intros Hrest.
      destruct (apply_update_frame _ _ _ Hstep) as (Hother & Hkeys & Hentries).
      destruct (IH _ _ Hrest) as (Hother' & Hkeys' & Hentries').
      split; [congruence|]. split; [intros s; now rewrite Hkeys'|].
      intros s name Hunnamed.
      rewrite Hentries' by (intros u Hu; apply Hunnamed; now right).
      apply Hentries, Hunnamed. now left.
  - intros update packageJson written Habsent. simpl.
    rewrite (apply_update_absent _ _ Habsent).
    destruct (_ && _); simpl; congruence.
  - intros update packageJson Habsent Hown. simpl.
    rewrite (apply_update_absent _ _ Habsent), Hown. reflexivity.
Qed.

Lemma applyUpdates_frame_witness :
  (other_fields (NpmScanner.with_section test_manifest NpmScanner.dependencies_section
                   [("express", "^4.18.2"); ("lodash", "~4.17.15")])
   = other_fields test_manifest
   /\ (forall s,
         keys (NpmScanner.with_section test_manifest NpmScanner.dependencies_section
                 [("express", "^4.18.2"); ("lodash", "~4.17.15")]) s
         = keys test_manifest s)
   /\ (forall s name,
         (forall update, In update [express_update] ->
                         NpmScanner.targetSection update <> s
                         \/ OutdatedPackage.name update <> name) ->
         entry (NpmScanner.with_section test_manifest NpmScanner.dependencies_section
                  [("express", "^4.18.2"); ("lodash", "~4.17.15")]) s name
         = entry test_manifest s name))
  /\ NpmScanner.applyUpdates [django_update] test_manifest = Ok test_manifest.
Proof.
  split.
  - exact (proj1 applyUpdates_frame [express_update] test_manifest
             (NpmScanner.with_section test_manifest NpmScanner.dependencies_section
                [("express", "^4.18.2"); ("lodash", "~4.17.15")])
             eq_refl).
  - exact (proj2 (proj2 applyUpdates_frame) django_update test_manifest
             eq_refl eq_refl).
Defined.

(** The rewrite of the scanner's test, and an update of a name that every
    object inherits. *)
Lemma applyUpdates_examples :
  NpmScanner.applyUpdates [express_update; lodash_update] test_manifest
  = Ok (mkPackageJson (Some [("express", "^4.18.2"); ("lodash", "~4.17.21")]) None [])
  /\ NpmScanner.applyUpdates
       [OutdatedPackage.mk "constructor" "1.0.0" "1.0.0" "1.0.1" production patch
          true false] test_manifest
     = Throw (TypeError "versionString.startsWith is not a function").
Proof. split; reflexivity. Qed.


(* ================================================================== *)
(** * Further properties of the analyzer *)

Lemma strip_range_chars_head (s : string) :
  head_is_range_char (outdated.strip_range_chars s) = false.
Proof.
  induction s as [|c s IH]; simpl; auto.
  destruct (outdated.is_range_char c) eqn:E; simpl; auto.
Qed.

Lemma strip_range_chars_fixed (s : string) :
  head_is_range_char s = false -> outdated.strip_range_chars s = s.
Proof. destruct s as [|c s]; simpl; auto. now intros ->. Qed.

Lemma parseVersion_cons (c : ascii) (v : string) :
  outdated.is_range_char c = true ->
  outdated.parseVersion (String c v) = outdated.parseVersion v.
Proof.
  intros Hc. unfold outdated.parseVersion. cbn [Js.truthy negb outdated.strip_range_chars].
  rewrite Hc. destruct v as [|d v]; reflexivity.
Qed.

(** X1: [parseVersion] does not see the operator characters in front of a
    version: whatever run of ^, ~, >, = and < precedes it, the result is that
    of the version alone. *)
Theorem parseVersion_ignores_operators (ops v : string) :
  Js.all_chars outdated.is_range_char ops = true ->
  outdated.parseVersion (ops ++ v) = outdated.parseVersion v.
Proof.
  induction ops as [|c ops IH]; cbn [append Js.all_chars]; auto.
  intros [Hc Hops]%andb_prop. rewrite parseVersion_cons by assumption. auto.
Qed.

Lemma parseVersion_ignores_operators_witness :
  outdated.parseVersion (">=" ++ "1.2.3") = outdated.parseVersion "1.2.3".
Proof. exact (parseVersion_ignores_operators ">=" "1.2.3" eq_refl). Defined.

(** X2: What [parseVersion] returns is a version that semver accepts, is what is
    left of the argument without its leading operator characters, and is
    returned unchanged when parsed again. *)
Theorem parseVersion_result (versionString clean : string) :
  outdated.parseVersion versionString = Some clean ->
  semver.valid clean = true
  /\ clean = outdated.strip_range_chars versionString
  /\ outdated.parseVersion clean = Some clean.
Proof.
  unfold outdated.parseVersion at 1.
  destruct (negb (Js.truthy versionString)); [discriminate|].
  destruct (semver.valid (outdated.strip_range_chars versionString)) eqn:Hvalid;
    [|discriminate].
  intros [= <-]. repeat split; auto.
  unfold outdated.parseVersion.
  rewrite (strip_range_chars_fixed _ (strip_range_chars_head versionString)), Hvalid.
  destruct (outdated.strip_range_chars versionString); [discriminate Hvalid|reflexivity].
Qed.

Lemma parseVersion_result_witness :
  semver.valid "4.17.1" = true
  /\ "4.17.1" = outdated.strip_range_chars "^4.17.1"
  /\ outdated.parseVersion "4.17.1" = Some "4.17.1".
Proof. exact (parseVersion_result "^4.17.1" "4.17.1" eq_refl). Defined.

Lemma emitted_cases {M} (scanner : Scanner M) (dep : Dependency.t) :
  emitted scanner dep =
  match getLatestVersion scanner (Dependency.name dep), current_version dep with
  | Ok (Some latest), Some current =>
      if Js.truthy current && Js.truthy latest && negb (String.eqb current latest)
      then [candidate_of dep current latest]
      else []
  | _, _ => []
  end.
Proof.
  unfold emitted, outdated.try_body, current_version.
  destruct (getLatestVersion scanner (Dependency.name dep)) as [[latest|]|e]; simpl; auto.
  - destruct (Js.or_else _ _) as [current|]; auto.
    now destruct (Js.truthy current && Js.truthy latest && negb (current =? latest)).
  - now destruct (Js.or_else _ _).
Qed.

Lemma emitted_at_most_one {M} (scanner : Scanner M) (dep : Dependency.t) :
  List.length (emitted scanner dep) <= 1.
Proof.
  rewrite emitted_cases.
  destruct (getLatestVersion scanner (Dependency.name dep)) as [[latest|]|e];
    destruct (current_version dep) as [current|]; simpl; auto.
  destruct (_ && _); simpl; auto.
Qed.

(** X3: Every candidate that [check] returns comes from one of the dependencies:
    it carries that dependency's name, declared version and type, the latest
    version is the one the scanner resolved for that name, the current
    version is the installed one or else the parsed declared one, the two
    are non-empty and differ, and [breaking] is the negation of [safe]. *)
Theorem check_candidates_provenance
        {M} (scanner : Scanner M) (options : Options)
        (dependencies : list Dependency.t) (found : list OutdatedPackage.t) :
  outdated.check dependencies scanner options = Ok found ->
  forall c, In c found ->
    exists dep,
      In dep dependencies
      /\ getLatestVersion scanner (Dependency.name dep) = Ok (Some (OutdatedPackage.latest c))
      /\ current_version dep = Some (OutdatedPackage.current c)
      /\ c = candidate_of dep (OutdatedPackage.current c) (OutdatedPackage.latest c)
      /\ OutdatedPackage.current c <> OutdatedPackage.latest c
      /\ OutdatedPackage.current c <> ""
      /\ OutdatedPackage.latest c <> ""
      /\ OutdatedPackage.breaking c = negb (OutdatedPackage.safe c).
Proof.
  rewrite check_flat_map. intros [= <-] c Hc.
  apply in_flat_map in Hc as (dep & Hdep & Hc). exists dep. split; auto.
  rewrite emitted_cases in Hc.
  destruct (getLatestVersion scanner (Dependency.name dep)) as [[latest|]|e];
    destruct (current_version dep) as [current|]; try contradiction.
  destruct (Js.truthy current && Js.truthy latest && negb (current =? latest)) eqn:Hcond;
    [|contradiction].
  destruct Hc as [<-|[]]. cbn.
  apply andb_prop in Hcond as [[Hcur Hlat]%andb_prop Hne].
  repeat split; auto.
  - apply negb_true_iff, String.eqb_neq in Hne. exact Hne.
  - intros ->. discriminate Hcur.
  - intros ->. discriminate Hlat.
  - now rewrite negb_involutive.
Qed.

Lemma check_candidates_provenance_witness :
  exists dep,
    In dep [express; invalid_package]
    /\ getLatestVersion (NpmScanner.scanner npm_registry) (Dependency.name dep)
       = Ok (Some "4.18.2")
    /\ current_version dep = Some "4.17.1"
    /\ candidate_of express "4.17.1" "4.18.2" = candidate_of dep "4.17.1" "4.18.2"
    /\ "4.17.1" <> "4.18.2"
    /\ "4.17.1" <> ""
    /\ "4.18.2" <> ""
    /\ false = negb true.
Proof.
  exact (check_candidates_provenance (NpmScanner.scanner npm_registry) default_options
           [express; invalid_package] _ eq_refl
           (candidate_of express "4.17.1" "4.18.2") (or_introl eq_refl)).
Defined.

(** X5: When the latest version is greater than the current one in the order of
    semantic versioning, the distance is the first component in which the
    two differ, and it is neither 'none' nor 'unknown'. *)
Theorem getUpdateType_on_upgrade (current latest : string) (c l : semver.SemVer) :
  semver.parse current = Some c -> semver.parse latest = Some l ->
  triple_lt c l ->
  outdated.getUpdateType current latest = first_difference c l
  /\ outdated.getUpdateType current latest <> none
  /\ outdated.getUpdateType current latest <> unknown.
Proof.
  intros Hc Hl Hlt. rewrite getUpdateType_spec, Hc, Hl.
  unfold distance_by_triples, first_difference.
  destruct Hlt as [H|[Hma [H|[Hmi H]]]].
  - pose proof H as H'. apply N.ltb_lt in H'. rewrite H'.
    assert ((semver.major c =? semver.major l)%N = false) as ->
        by (apply N.eqb_neq; intros E; rewrite E in H; now apply N.lt_irrefl in H).
    repeat split; discriminate.
  - rewrite Hma, N.ltb_irrefl, N.eqb_refl.
    pose proof H as H'. apply N.ltb_lt in H'. rewrite H'.
    assert ((semver.minor c =? semver.minor l)%N = false) as ->
        by (apply N.eqb_neq; intros E; rewrite E in H; now apply N.lt_irrefl in H).
    repeat split; discriminate.
  - rewrite Hma, Hmi, !N.ltb_irrefl, !N.eqb_refl.
    pose proof H as H'. apply N.ltb_lt in H'. rewrite H'.
    assert ((semver.patch c =? semver.patch l)%N = false) as ->
        by (apply N.eqb_neq; intros E; rewrite E in H; now apply N.lt_irrefl in H).
    repeat split; discriminate.
Qed.

Lemma getUpdateType_on_upgrade_witness :
  outdated.getUpdateType "4.17.15" "4.17.21"
  = first_difference (semver.mkSemVer 4 17 15) (semver.mkSemVer 4 17 21)
  /\ outdated.getUpdateType "4.17.15" "4.17.21" <> none
  /\ outdated.getUpdateType "4.17.15" "4.17.21" <> unknown.
Proof.
  apply (getUpdateType_on_upgrade "4.17.15" "4.17.21"); try reflexivity.
  right. split; [reflexivity|]. right. split; reflexivity.
Defined.

(** X6: A latest version with a smaller major number is still reported as a
    minor update when its minor number is greater, and as a patch update
    when its minor number is not greater and its patch number is: the
    components are compared one by one, not as a version. *)
Theorem getUpdateType_on_downgrade (current latest : string) (c l : semver.SemVer) :
  semver.parse current = Some c -> semver.parse latest = Some l ->
  (semver.major l < semver.major c)%N ->
  ((semver.minor c < semver.minor l)%N ->
   outdated.getUpdateType current latest = minor)
  /\ ((semver.minor l <= semver.minor c)%N -> (semver.patch c < semver.patch l)%N ->
      outdated.getUpdateType current latest = patch).
Proof.
  intros Hc Hl Hma. rewrite getUpdateType_spec, Hc, Hl. unfold distance_by_triples.
  assert ((semver.major c <? semver.major l)%N = false) as ->
      by (apply N.ltb_ge; now apply N.lt_le_incl).
  split.
  - intros Hmi. apply N.ltb_lt in Hmi. now rewrite Hmi.
  - intros Hmi Hpa. apply N.ltb_ge in Hmi. apply N.ltb_lt in Hpa. now rewrite Hmi, Hpa.
Qed.

Lemma getUpdateType_on_downgrade_witness :
  (outdated.getUpdateType "2.0.0" "1.5.3" = minor)
  /\ (outdated.getUpdateType "2.1.0" "1.0.3" = patch).
Proof.
  split.
  - apply (proj1 (getUpdateType_on_downgrade "2.0.0" "1.5.3" (semver.mkSemVer 2 0 0)
                    (semver.mkSemVer 1 5 3) eq_refl eq_refl eq_refl)).
    reflexivity.
  - apply (proj2 (getUpdateType_on_downgrade "2.1.0" "1.0.3" (semver.mkSemVer 2 1 0)
                    (semver.mkSemVer 1 0 3) eq_refl eq_refl eq_refl)).
    + discriminate.
    + reflexivity.
Defined.

(* ================================================================== *)
(** * Further properties of the npm scanner *)

Lemma startsWith_decompose (p : string) :
  forall s, Js.startsWith s p = true -> exists rest, s = p ++ rest.
Proof.
  induction p as [|c p IH]; intros s; cbn [Js.startsWith].
  - intros _. now exists s.
  - destruct s as [|d s]; [discriminate|].
    intros [Hc Hp]%andb_prop. apply Ascii.eqb_eq in Hc. subst d.
    destruct (IH s Hp) as [rest ->]. now exists rest.
Qed.

Lemma getVersionPrefix_cases (versionString : string) :
  In (NpmScanner.getVersionPrefix versionString) claimed_operators
  /\ exists rest, versionString = NpmScanner.getVersionPrefix versionString ++ rest.
Proof.
  unfold NpmScanner.getVersionPrefix, claimed_operators.
  repeat match goal with
         | |- context [if Js.startsWith ?s ?p then _ else _] =>
             destruct (Js.startsWith s p) eqn:?H;
             [split; [simpl; tauto|now apply startsWith_decompose]|]
         end.
  split; [simpl; tauto|now exists versionString].
Qed.

(** X9: [getVersionPrefix] returns one of ^, ~, >=, >, <=, < and the empty
    string, and what it returns is a prefix of its argument. *)
Theorem getVersionPrefix_is_a_prefix (versionString : string) :
  In (NpmScanner.getVersionPrefix versionString) claimed_operators
  /\ exists rest, versionString = NpmScanner.getVersionPrefix versionString ++ rest.
Proof. apply getVersionPrefix_cases. Qed.

Lemma getVersionPrefix_of_rewritten (versionString latest : string) :
  head_is_range_char latest = false ->
  NpmScanner.getVersionPrefix (NpmScanner.getVersionPrefix versionString ++ latest)
  = NpmScanner.getVersionPrefix versionString.
Proof.
  intros H. apply getVersionPrefix_operator; auto.
  apply getVersionPrefix_cases.
Qed.

Lemma assign_same_value {A : Type} key (v : A) entries :
  JsObject.own key entries = Some v -> JsObject.assign key v entries = entries.
Proof.
  induction entries as [|[k x] entries IH]; simpl; auto.
  destruct (String.eqb_spec key k) as [->|].
  - now intros [= ->].
  - intros H. now rewrite IH.
Qed.

Lemma with_section_same packageJson s entries :
  NpmScanner.section_of packageJson s = Some entries ->
  NpmScanner.with_section packageJson s entries = packageJson.
Proof. destruct packageJson, s; simpl; now intros ->. Qed.

Lemma keys_present packageJson written s :
  keys written s = keys packageJson s ->
  forall entries, NpmScanner.section_of packageJson s = Some entries ->
  exists entries', NpmScanner.section_of written s = Some entries'.
Proof.
  unfold keys. intros H entries Hsec. rewrite Hsec in H.
  destruct (NpmScanner.section_of written s) as [entries'|]; [eauto|discriminate].
Qed.

Lemma keys_absent packageJson written s :
  keys written s = keys packageJson s ->
  NpmScanner.section_of packageJson s = None ->
  NpmScanner.section_of written s = None.
Proof.
  unfold keys. intros H Hsec. rewrite Hsec in H.
  now destruct (NpmScanner.section_of written s).
Qed.

(** What a whole pass keeps, from what one update keeps. *)
Lemma applyUpdates_keeps updates :
  forall packageJson written,
    NpmScanner.applyUpdates updates packageJson = Ok written ->
    (forall s, keys written s = keys packageJson s)
    /\ (forall s name,
          (forall update, In update updates -> update_key update <> (s, name)) ->
          entry written s name = entry packageJson s name).
Proof.
  induction updates as [|update rest IH]; intros packageJson written; simpl.
  - intros [= <-]. auto.
  - destruct (NpmScanner.apply_update packageJson update) as [middle|e] eqn:Hstep;
      simpl; [|discriminate].
    intros Hrest.
    destruct (apply_update_frame _ _ _ Hstep) as (_ & Hkeys & Hentries).
    destruct (IH _ _ Hrest) as (Hkeys' & Hentries').
    split; [intros s; now rewrite Hkeys'|].
    intros s name Hunnamed.
    rewrite Hentries' by (intros u Hu; apply Hunnamed; now right).
    apply Hentries.
    assert (update_key update <> (s, name)) as Hne by (apply Hunnamed; now left).
    unfold update_key in Hne.
    destruct (String.eqb_spec (OutdatedPackage.name update) name) as [Hname|]; auto.
    left. intros E. apply Hne. now rewrite E, Hname.
Qed.

(** The entry that an update addresses, after the update. *)
Lemma apply_update_entry packageJson update middle :
  NpmScanner.apply_update packageJson update = Ok middle ->
  entry middle (NpmScanner.targetSection update) (OutdatedPackage.name update)
  = match entry packageJson (NpmScanner.targetSection update)
                (OutdatedPackage.name update) with
    | Some versionString =>
        if Js.truthy versionString
        then Some (NpmScanner.getVersionPrefix versionString
                   ++ OutdatedPackage.latest update)
        else Some versionString
    | None => None
    end.
Proof.
  unfold NpmScanner.apply_update, entry.
  destruct (NpmScanner.section_of packageJson (NpmScanner.targetSection update))
    as [entries|] eqn:Hsec.
  2:{ intros [= <-]. now rewrite Hsec. }
  destruct (JsObject.own (OutdatedPackage.name update) entries) as [v|] eqn:Hown.
  2:{ destruct (JsObject.inherited _); [discriminate|]. intros [= <-].
      now rewrite Hsec, Hown. }
  destruct (Js.truthy v); [|intros [= <-]; now rewrite Hsec, Hown].
  intros [= <-]. rewrite section_of_with_section.
  destruct (NpmScanner.targetSection update); eapply own_assign_same; eassumption.
Qed.

(** An update leaves alone a manifest whose entry already is the rewritten
    one. *)
Lemma apply_update_settled packageJson update written :
  head_is_range_char (OutdatedPackage.latest update) = false ->
  NpmScanner.apply_update packageJson update <> Throw (TypeError "versionString.startsWith is not a function") ->
  (forall s, keys written s = keys packageJson s) ->
  entry written (NpmScanner.targetSection update) (OutdatedPackage.name update)
  = match entry packageJson (NpmScanner.targetSection update)
                (OutdatedPackage.name update) with
    | Some versionString =>
        if Js.truthy versionString
        then Some (NpmScanner.getVersionPrefix versionString
                   ++ OutdatedPackage.latest update)
        else Some versionString
    | None => None
    end ->
  NpmScanner.apply_update written update = Ok written.
Proof.
  intros Hhead Hok Hkeys Hentry.
  unfold NpmScanner.apply_update in *. unfold entry in Hentry.
  destruct (NpmScanner.section_of packageJson (NpmScanner.targetSection update))
    as [entries|] eqn:Hsec.
  2:{ now rewrite (keys_absent _ _ _ (Hkeys _) Hsec). }
  destruct (keys_present _ _ _ (Hkeys _) _ Hsec) as [entries' Hsec'].
  rewrite Hsec' in *.
  destruct (JsObject.own (OutdatedPackage.name update) entries) as [v|].
  2:{ rewrite Hentry. now destruct (JsObject.inherited _). }
  rewrite Hentry.
  destruct (Js.truthy v) eqn:Hv.
  - rewrite getVersionPrefix_of_rewritten by assumption.
    rewrite assign_same_value by assumption.
    rewrite with_section_same by assumption.
    now destruct (Js.truthy (_ ++ _)).
  - now rewrite Hv.
Qed.

Lemma applyUpdates_all_settled updates :
  forall packageJson written,
    NoDup (map update_key updates) ->
    (forall update, In update updates ->
                    head_is_range_char (OutdatedPackage.latest update) = false) ->
    NpmScanner.applyUpdates updates packageJson = Ok written ->
    forall update, In update updates ->
                   NpmScanner.apply_update written update = Ok written.
Proof.
  induction updates as [|first rest IH]; intros packageJson written Hnodup Hheads;
    simpl; [intros _ u []|].
  destruct (NpmScanner.apply_update packageJson first) as [middle|e] eqn:Hstep;
    simpl; [|discriminate].
  intros Hrest update [<-|Hin].
  - inversion Hnodup as [|k ks Hnotin Hnodup']; subst.
    destruct (applyUpdates_keeps _ _ _ Hrest) as (Hkeys & Hentries).
    destruct (apply_update_frame _ _ _ Hstep) as (_ & Hkeys1 & _).
    apply (apply_update_settled packageJson).
    + apply Hheads. now left.
    + rewrite Hstep. discriminate.
    + intros s. now rewrite Hkeys.
    + rewrite Hentries.
      * now apply apply_update_entry.
      * intros u Hu E. apply Hnotin.
        rewrite <- (E : update_key u = update_key first). now apply in_map.
  - inversion Hnodup; subst.
    apply (IH middle); auto. intros u Hu. apply Hheads. now right.
Qed.

(** X10: Rewriting the manifest a second time with the same updates changes
    nothing, when no two updates address the same entry and no latest version
    starts with an operator character. *)
Theorem applyUpdates_idempotent updates packageJson written :
  NoDup (map update_key updates) ->
  (forall update, In update updates ->
                  head_is_range_char (OutdatedPackage.latest update) = false) ->
  NpmScanner.applyUpdates updates packageJson = Ok written ->
  NpmScanner.applyUpdates updates written = Ok written.
Proof.
  intros Hnodup Hheads Hpass.
  pose proof (applyUpdates_all_settled _ _ _ Hnodup Hheads Hpass) as Hsettled.
  clear Hnodup Hheads Hpass.
  induction updates as [|first rest IH]; simpl; auto.
  rewrite Hsettled by now left. simpl.
  apply IH. intros u Hu. apply Hsettled. now right.
Qed.

Lemma applyUpdates_idempotent_witness :
  NpmScanner.applyUpdates [express_update; lodash_update]
    (mkPackageJson (Some [("express", "^4.18.2"); ("lodash", "~4.17.21")]) None [])
  = Ok (mkPackageJson (Some [("express", "^4.18.2"); ("lodash", "~4.17.21")]) None []).
Proof.
  apply (applyUpdates_idempotent [express_update; lodash_update] test_manifest).
  - repeat constructor; simpl; intuition discriminate.
  - intros update [<-|[<-|[]]]; reflexivity.
  - reflexivity.
Defined.

Lemma scan_entries_members options node_modules type entries dep :
  In dep (NpmScanner.scan_entries options node_modules type entries) ->
  shouldIgnore options (Dependency.name dep) = false
  /\ Dependency.type dep = type
  /\ Dependency.installed dep = node_modules (Dependency.name dep)
  /\ In (Dependency.name dep, Dependency.version dep) entries.
Proof.
  induction entries as [|[name version] entries IH]; simpl; [tauto|].
  destruct (shouldIgnore options name) eqn:Hignore.
  - intros H. destruct (IH H) as (? & ? & ? & ?). auto.
  - intros [<-|H]; simpl; auto.
    destruct (IH H) as (? & ? & ? & ?). auto.
Qed.

(** X11: Every dependency that the npm [scan] lists is an entry of the section of
    its type (dependencies for production, devDependencies for development),
    with the constraint declared there, is not named in the ignore list, and
    carries the installed version that the lookup in node_modules gave. *)
Theorem npm_scan_members options node_modules packageJson dep :
  In dep (NpmScanner.scan options node_modules packageJson) ->
  shouldIgnore options (Dependency.name dep) = false
  /\ Dependency.installed dep = node_modules (Dependency.name dep)
  /\ exists entries,
      NpmScanner.section_of packageJson
        (match Dependency.type dep with
         | production => NpmScanner.dependencies_section
         | development => NpmScanner.devDependencies_section
         end) = Some entries
      /\ In (Dependency.name dep, Dependency.version dep) entries.
Proof.
  unfold NpmScanner.scan. intros [H|H]%in_app_or.
  - destruct (dependencies packageJson) as [entries|] eqn:Hsec; [|contradiction].
    destruct (negb (dev options)); [|contradiction].
    apply scan_entries_members in H as (? & -> & ? & ?). eauto.
  - destruct (devDependencies packageJson) as [entries|] eqn:Hsec; [|contradiction].
    destruct (negb (opt_production options)); [|contradiction].
    apply scan_entries_members in H as (? & -> & ? & ?). eauto.
Qed.

Lemma npm_scan_members_witness :
  shouldIgnore default_options "lodash" = false
  /\ Some "4.17.15" = Some "4.17.15"
  /\ exists entries,
      NpmScanner.section_of test_manifest NpmScanner.dependencies_section = Some entries
      /\ In ("lodash", "~4.17.15") entries.
Proof.
  apply (npm_scan_members default_options
           (fun name => if String.eqb name "lodash" then Some "4.17.15" else None)
           test_manifest
           (Dependency.mk "lodash" "~4.17.15" None production (Some "4.17.15"))).
  simpl. auto.
Defined.

Lemma scan_entries_in_order options node_modules type entries :
  map (fun dep => (Dependency.name dep, Dependency.version dep))
      (NpmScanner.scan_entries options node_modules type entries)
  = filter (fun e => negb (shouldIgnore options (fst e))) entries.
Proof.
  induction entries as [|[name version] entries IH]; simpl; auto.
  destruct (shouldIgnore options name); simpl; congruence.
Qed.

(** X12: Without the two filters, the npm [scan] lists the entries of
    dependencies and then those of devDependencies, each section in the
    order of its keys, leaving out exactly the names of the ignore list. *)
Theorem npm_scan_in_manifest_order options node_modules packageJson :
  dev options = false -> opt_production options = false ->
  map (fun dep => (Dependency.name dep, Dependency.version dep))
      (NpmScanner.scan options node_modules packageJson)
  = (filter (fun e => negb (shouldIgnore options (fst e)))
            (match dependencies packageJson with Some entries => entries | None => [] end)
     ++ filter (fun e => negb (shouldIgnore options (fst e)))
               (match devDependencies packageJson with
                | Some entries => entries
                | None => []
                end))%list.
Proof.
  intros Hdev Hprod. unfold NpmScanner.scan. rewrite Hdev, Hprod, map_app. simpl.
  f_equal.
  - destruct (dependencies packageJson); [apply scan_entries_in_order|reflexivity].
  - destruct (devDependencies packageJson); [apply scan_entries_in_order|reflexivity].
Qed.

Lemma npm_scan_in_manifest_order_witness :
  map (fun dep => (Dependency.name dep, Dependency.version dep))
      (NpmScanner.scan (mkOptions false false (Some "lodash, chalk") false false false)
         (fun _ => None) test_manifest)
  = (filter (fun e => negb (shouldIgnore
                              (mkOptions false false (Some "lodash, chalk") false false false)
                              (fst e)))
            [("express", "^4.17.1"); ("lodash", "~4.17.15")]
     ++ filter (fun e => negb (shouldIgnore
                                 (mkOptions false false (Some "lodash, chalk") false false false)
                                 (fst e)))
               [])%list.
Proof.
  exact (npm_scan_in_manifest_order
           (mkOptions false false (Some "lodash, chalk") false false false)
           (fun _ => None) test_manifest eq_refl eq_refl).
Defined.

(* ================================================================== *)
(** * Further properties of the python scanner *)

Lemma includes_split_two (op : string) :
  op <> "" ->
  forall s, Js.includes s op = true ->
            exists a b rest, Js.split_from op 0 s = a :: b :: rest.
Proof.
  intros Hop. induction s as [|c r IH].
  - destruct op; [contradiction|discriminate].
  - change (Js.includes (String c r) op)
      with (Js.startsWith (String c r) op || Js.includes r op).
    change (Js.split_from op 0 (String c r))
      with (if Js.startsWith (String c r) op
            then EmptyString :: Js.split_from op (String.length op - 1) r
            else match Js.split_from op 0 r with
                 | q :: qs => String c q :: qs
                 | [] => [String c EmptyString]
                 end).
    destruct (Js.startsWith (String c r) op).
    + intros _. pose proof (split_from_nonempty op r (String.length op - 1)) as Hne.
      destruct (Js.split_from op (String.length op - 1) r) as [|b rest];
        [contradiction|eauto].
    + simpl. intros H. destruct (IH H) as (a & b & rest & ->). eauto.
Qed.

Lemma startsWith_app (p rest : string) : Js.startsWith (p ++ rest) p = true.
Proof.
  induction p as [|c p IH]; cbn [append Js.startsWith]; [apply startsWith_empty|].
  now rewrite Ascii.eqb_refl, IH.
Qed.

Lemma extractOperator_from_found (ops : list string) (op s : string) :
  In op ops -> Js.startsWith s op = true ->
  PythonScanner.extractOperator_from ops s <> None.
Proof.
  induction ops as [|o ops IH]; simpl; [tauto|].
  intros [->|Hin] Hs.
  - now rewrite Hs.
  - destruct (Js.startsWith s o); [discriminate|auto].
Qed.

(** What [parse_with] returns for a list of non-empty operators. *)
Lemma parse_with_shape (ops : list string) (line : string) :
  Forall (fun op => op <> "") ops ->
  exists dependency,
    PythonScanner.parse_with ops line = Ok dependency
    /\ ((PythonScanner.specifiedVersion dependency = None
         /\ PythonScanner.version dependency = "*"
         /\ PythonScanner.name dependency = Js.trim line)
        \/ (exists op v,
               In op ops /\ Js.includes line op = true
               /\ PythonScanner.version dependency = op ++ v
               /\ PythonScanner.specifiedVersion dependency = Some v)).
Proof.
  induction 1 as [|op ops Hop Hops IH]; cbn [PythonScanner.parse_with].
  - eexists. split; [reflexivity|]. left. auto.
  - destruct (Js.includes line op) eqn:Hinc.
    + destruct (includes_split_two op Hop line Hinc) as (a & b & rest & Hsplit).
      unfold Js.split. rewrite Hsplit. eexists. split; [reflexivity|].
      right. exists op, (Js.trim b). simpl. auto.
    + destruct IH as (d & -> & [H|(op' & v & Hin & H)]); exists d; split; auto.
      right. exists op', v. simpl. tauto.
Qed.

Lemma operators_nonempty : Forall (fun op => op <> "") PythonScanner.operators.
Proof. repeat constructor; discriminate. Qed.

Lemma parseDependency_returns (line : string) :
  exists dependency,
    PythonScanner.parseDependency line = Ok dependency
    /\ (PythonScanner.extractOperator (PythonScanner.version dependency) = None
        <-> PythonScanner.specifiedVersion dependency = None)
    /\ (PythonScanner.specifiedVersion dependency = None ->
        PythonScanner.version dependency = "*"
        /\ PythonScanner.name dependency = Js.trim line).
Proof.
  destruct (parse_with_shape PythonScanner.operators line operators_nonempty)
    as (d & Hd & [(Hspec & Hver & Hname)|(op & v & Hin & _ & Hver & Hspec)]);
    exists d; (split; [exact Hd|]).
  - rewrite Hver, Hspec. split; [split; reflexivity|auto].
  - rewrite Hver, Hspec. split; [split; intros H|discriminate].
    + exfalso. revert H. apply (extractOperator_from_found _ op); auto.
      apply startsWith_app.
    + discriminate.
Qed.

(** X13: [parseDependency] never throws: a line that includes an operator has a
    piece on either side of it.  And the version it returns starts with an
    operator that [extractOperator] finds exactly when the line holds one:
    the fallback to == in [applyUpdates] is taken for the lines without an
    operator, and for no other. *)
Theorem parseDependency_total (line : string) :
  exists dependency,
    PythonScanner.parseDependency line = Ok dependency
    /\ (PythonScanner.extractOperator (PythonScanner.version dependency) = None
        <-> PythonScanner.specifiedVersion dependency = None)
    /\ (PythonScanner.specifiedVersion dependency = None ->
        PythonScanner.version dependency = "*"
        /\ PythonScanner.name dependency = Js.trim line).
Proof. apply parseDependency_returns. Qed.

Lemma split_from_skip (sep t : string) :
  forall rest, Js.split_from sep (String.length t) (t ++ rest) = Js.split_from sep 0 rest.
Proof. induction t as [|c t IH]; intros rest; simpl; auto. Qed.

Lemma join_cons_char (sep : string) (c : ascii) (p : string) (ps : list string) :
  Js.join sep (String c p :: ps) = String c (Js.join sep (p :: ps)).
Proof. destruct ps; reflexivity. Qed.

Lemma length_append (a b : string) :
  String.length (a ++ b) = String.length a + String.length b.
Proof. induction a as [|c a IH]; simpl; congruence. Qed.

Lemma join_split_bounded (sep : string) :
  sep <> "" ->
  forall n s, String.length s <= n -> Js.join sep (Js.split_from sep 0 s) = s.
Proof.
  intros Hsep. induction n as [|n IH]; intros s Hlen.
  - destruct s; [reflexivity|inversion Hlen].
  - destruct s as [|c r]; [reflexivity|].
    change (Js.split_from sep 0 (String c r))
      with (if Js.startsWith (String c r) sep
            then EmptyString :: Js.split_from sep (String.length sep - 1) r
            else match Js.split_from sep 0 r with
                 | q :: qs => String c q :: qs
                 | [] => [String c EmptyString]
                 end).
    simpl in Hlen. apply le_S_n in Hlen.
    destruct (Js.startsWith (String c r) sep) eqn:Hstart.
    + destruct (startsWith_decompose _ _ Hstart) as [rest Hrest].
      destruct sep as [|c0 sep']; [contradiction|].
      simpl in Hrest. injection Hrest as -> ->.
      cbn [String.length]. rewrite Nat.sub_succ, Nat.sub_0_r, split_from_skip.
      assert (String.length rest <= n) as Hrest.
      { rewrite length_append in Hlen.
        apply (Nat.le_trans _ (String.length sep' + String.length rest)); auto.
        apply Nat.le_add_l. }
      pose proof (split_from_nonempty (String c0 sep') rest 0) as Hne.
      pose proof (IH rest Hrest) as Hjoin.
      destruct (Js.split_from (String c0 sep') 0 rest) as [|q qs]; [contradiction|].
      change (Js.join (String c0 sep') (EmptyString :: q :: qs))
        with (EmptyString ++ String c0 sep' ++ Js.join (String c0 sep') (q :: qs)).
      now rewrite Hjoin.
    + pose proof (split_from_nonempty sep r 0) as Hne.
      pose proof (IH r Hlen) as Hjoin.
      destruct (Js.split_from sep 0 r) as [|q qs]; [contradiction|].
      now rewrite join_cons_char, Hjoin.
Qed.

(** Splitting at a separator and joining with it gives the text back. *)
Lemma join_split (s sep : string) : sep <> "" -> Js.join sep (Js.split s sep) = s.
Proof. intros H. now apply (join_split_bounded sep H (String.length s)). Qed.

Lemma update_line_cases updates line :
  exists line',
    PythonScanner.update_line updates line = Ok line' /\ rewritten updates line line'.
Proof.
  unfold PythonScanner.update_line, rewritten, skipped_line, written_operator.
  destruct (negb (Js.truthy (Js.trim line)) || Js.startsWith (Js.trim line) "#").
  - exists line. auto.
  - destruct (parseDependency_returns (Js.trim line)) as (d & Hd & _).
    rewrite Hd. cbn [bind]. fold (find_update updates (PythonScanner.name d)).
    destruct (find_update updates (PythonScanner.name d)) as [u|] eqn:Hfind.
    + eexists. split; [reflexivity|]. right. split; auto. exists d, u. auto.
    + exists line. auto.
Qed.

Lemma update_line_unaddressed updates line :
  unaddressed updates line -> PythonScanner.update_line updates line = Ok line.
Proof.
  unfold PythonScanner.update_line, unaddressed, skipped_line.
  intros [->|H]; [reflexivity|].
  destruct (negb (Js.truthy (Js.trim line)) || Js.startsWith (Js.trim line) "#"); auto.
  destruct (parseDependency_returns (Js.trim line)) as (d & Hd & _).
  rewrite Hd. cbn [bind]. fold (find_update updates (PythonScanner.name d)).
  now rewrite (H d Hd).
Qed.

(** X14: The python [applyUpdates] maps the lines one to one and never throws:
    each line comes out either as it was, or, when it is neither blank nor a
    comment and an update names its package, as name, operator and latest
    version. *)
Theorem python_update_lines_frame updates lines :
  exists lines',
    PythonScanner.update_lines updates lines = Ok lines'
    /\ Forall2 (rewritten updates) lines lines'.
Proof.
  induction lines as [|line lines (lines' & IH & Hall)]; simpl.
  - exists []. auto.
  - destruct (update_line_cases updates line) as (line' & -> & Hline).
    simpl. rewrite IH. simpl. exists (line' :: lines'). auto.
Qed.

Lemma update_lines_unaddressed updates lines :
  Forall (unaddressed updates) lines ->
  PythonScanner.update_lines updates lines = Ok lines.
Proof.
  induction 1 as [|line lines Hline Hlines IH]; simpl; auto.
  rewrite (update_line_unaddressed _ _ Hline). simpl. now rewrite IH.
Qed.

(** X15: When no update names the package of any line, the python [applyUpdates]
    writes the text of requirements.txt back as it read it, byte for byte;
    so it does for an empty list of updates. *)
Theorem python_applyUpdates_identity updates content :
  Forall (unaddressed updates) (Js.split content PythonScanner.newline) ->
  PythonScanner.applyUpdates updates content = Ok content.
Proof.
  intros H. unfold PythonScanner.applyUpdates.
  rewrite (update_lines_unaddressed _ _ H). cbn [bind].
  rewrite join_split; [reflexivity|discriminate].
Qed.

Lemma unaddressed_by_none (line : string) : unaddressed [] line.
Proof. right. reflexivity. Qed.

Lemma python_applyUpdates_identity_witness :
  PythonScanner.applyUpdates [] sample_requirements = Ok sample_requirements.
Proof.
  apply python_applyUpdates_identity.
  apply Forall_forall. intros line _. apply unaddressed_by_none.
Defined.

Lemma python_scan_line_members options line :
  exists found,
    PythonScanner.scan_line options line = Ok found
    /\ List.length found <= 1
    /\ (skipped_line line = true -> found = [])
    /\ forall dep, In dep found ->
                   Dependency.type dep = production
                   /\ Dependency.installed dep = None
                   /\ shouldIgnore options (Dependency.name dep) = false.
Proof.
  unfold PythonScanner.scan_line, skipped_line.
  destruct (negb (Js.truthy (Js.trim line)) || Js.startsWith (Js.trim line) "#").
  - exists []. split; [reflexivity|]. split; [simpl; auto|]. split; [auto|].
    intros dep [].
  - destruct (parseDependency_returns (Js.trim line)) as (d & -> & _). cbn [bind].
    destruct (shouldIgnore options (PythonScanner.name d)) eqn:Hignore; simpl.
    + exists []. split; [reflexivity|]. split; [simpl; auto|]. split; [auto|].
      intros dep [].
    + eexists. split; [reflexivity|]. split; [simpl; auto|]. split; [discriminate|].
      intros dep [<-|[]]. auto.
Qed.

(* ================================================================== *)
(** * The fix applicator, the recommendations and the exit code *)

Lemma flat_map_emitted_flags {M} (scanner : Scanner M) dependencies c :
  In c (flat_map (emitted scanner) dependencies) ->
  OutdatedPackage.safe c = negb (is_major c)
  /\ OutdatedPackage.breaking c = is_major c.
Proof.
  intros (dep & _ & Hc)%in_flat_map. now apply (emitted_flags scanner dep).
Qed.

Lemma filter_ext_in' {A : Type} (f g : A -> bool) (l : list A) :
  (forall a, In a l -> f a = g a) -> filter f l = filter g l.
Proof.
  induction l as [|a l IH]; simpl; auto. intros H.
  rewrite (H a) by now left. rewrite IH; auto.
Qed.

Lemma filter_partition_length {A : Type} (f : A -> bool) (l : list A) :
  List.length (filter f l) + List.length (filter (fun a => negb (f a)) l)
  = List.length l.
Proof.
  induction l as [|a l IH]; simpl; auto.
  destruct (f a); simpl; rewrite <- IH; auto.
Qed.

(** X8: Of the candidates that [check] returns, [applyFixes] hands to the
    scanner exactly those whose updateType is not 'major', in their order:
    a major update is never applied, and every other one is, whatever its
    updateType. *)
Theorem applyFixes_applies_all_but_major
        {M} (scanner : Scanner M) (options : Options)
        (dependencies : list Dependency.t) (found : list OutdatedPackage.t)
        (manifest : M) :
  outdated.check dependencies scanner options = Ok found ->
  DependencyChecker.safeUpdates found = filter (fun c => negb (is_major c)) found
  /\ (forall c, In c (DependencyChecker.safeUpdates found) ->
                OutdatedPackage.updateType c <> major)
  /\ DependencyChecker.applyFixes (Some scanner) found manifest
     = match filter (fun c => negb (is_major c)) found with
       | [] => Ok manifest
       | updates => applyUpdates scanner updates manifest
       end.
Proof.
  rewrite check_flat_map. intros [= <-].
  assert (DependencyChecker.safeUpdates (flat_map (emitted scanner) dependencies)
          = filter (fun c => negb (is_major c)) (flat_map (emitted scanner) dependencies))
    as Hfilter.
  { apply filter_ext_in'. intros c Hc.
    destruct (flat_map_emitted_flags _ _ _ Hc) as [-> ->].
    now rewrite andb_diag. }
  split; [exact Hfilter|]. split.
  - intros c Hc. rewrite Hfilter in Hc. apply filter_In in Hc as [_ Hc].
    unfold is_major in Hc. intros E. now rewrite E in Hc.
  - unfold DependencyChecker.applyFixes. rewrite Hfilter.
    now destruct (filter _ _).
Qed.

Lemma applyFixes_applies_all_but_major_witness :
  DependencyChecker.safeUpdates [django_candidate]
  = filter (fun c => negb (is_major c)) [django_candidate]
  /\ (forall c, In c (DependencyChecker.safeUpdates [django_candidate]) ->
                OutdatedPackage.updateType c <> major)
  /\ DependencyChecker.applyFixes (Some (PythonScanner.scanner pypi)) [django_candidate]
       django_requirements
     = match filter (fun c => negb (is_major c)) [django_candidate] with
       | [] => Ok django_requirements
       | updates => applyUpdates (PythonScanner.scanner pypi) updates django_requirements
       end.
Proof.
  exact (applyFixes_applies_all_but_major (PythonScanner.scanner pypi) default_options
           [django] [django_candidate] django_requirements eq_refl).
Defined.

Lemma push_if_any_app count r recommendations :
  json_formatter.push_if_any count r recommendations
  = (recommendations ++ json_formatter.push_if_any count r [])%list.
Proof.
  unfold json_formatter.push_if_any.
  destruct (Nat.ltb 0 count); simpl; auto. now rewrite app_nil_r.
Qed.

(** X17: For the candidates that [check] returns, the number of packages that
    the JSON report announces as safely updatable is the number of updates
    that [applyFixes] hands to the scanner, and safe and major updates
    together are all the candidates. *)
Theorem recommended_updates_are_the_applied_ones
        {M} (scanner : Scanner M) (options : Options)
        (dependencies : list Dependency.t) (found : list OutdatedPackage.t)
        (vulnerabilities : list Vulnerability.t) :
  outdated.check dependencies scanner options = Ok found ->
  let applied := List.length (DependencyChecker.safeUpdates found) in
  let majors := List.length (filter is_major found) in
  applied + majors = List.length found
  /\ json_formatter.generateRecommendations
       (Report.mk dependencies found vulnerabilities)
     = (json_formatter.push_if_any applied
          (json_formatter.mkRecommendation "update" "medium"
             (number applied ++ " packages can be safely updated") "depcheck --fix") []
        ++ json_formatter.push_if_any majors
             (json_formatter.mkRecommendation "review" "low"
                (number majors ++ " major version updates available")
                "Review breaking changes before updating") []
        ++ json_formatter.generateRecommendations
             (Report.mk dependencies [] vulnerabilities))%list.
Proof.
  rewrite check_flat_map. intros [= <-]. cbv zeta.
  set (found := flat_map (emitted scanner) dependencies).
  assert (filter OutdatedPackage.safe found = DependencyChecker.safeUpdates found) as Hsafe.
  { apply filter_ext_in'. intros c Hc.
    destruct (flat_map_emitted_flags _ _ _ Hc) as [-> ->].
    now rewrite andb_diag. }
  assert (DependencyChecker.safeUpdates found = filter (fun c => negb (is_major c)) found)
    as Hnot.
  { apply filter_ext_in'. intros c Hc.
    destruct (flat_map_emitted_flags _ _ _ Hc) as [-> ->].
    now rewrite andb_diag. }
  split.
  - rewrite Hnot, Nat.add_comm. apply filter_partition_length.
  - unfold json_formatter.generateRecommendations.
    cbn [Report.outdated Report.vulnerabilities filter List.length].
    rewrite Hsafe.
    rewrite (push_if_any_app _ _ (json_formatter.push_if_any _ _ (json_formatter.push_if_any _ _ _))).
    rewrite (push_if_any_app _ _ (json_formatter.push_if_any _ _ (json_formatter.push_if_any _ _ []))).
    rewrite (push_if_any_app _ _ (json_formatter.push_if_any _ _ [])).
    rewrite (push_if_any_app (List.length (filter (severity_is "high") vulnerabilities)) _
               (json_formatter.push_if_any _ _ (json_formatter.push_if_any _ _ _))).
    rewrite (push_if_any_app (List.length (filter (severity_is "critical") vulnerabilities)) _
               (json_formatter.push_if_any _ _ _)).
    cbn [json_formatter.push_if_any Nat.ltb Nat.leb app].
    now rewrite <- !app_assoc.
Qed.

Lemma recommended_updates_are_the_applied_ones_witness :
  let found := [candidate_of express "4.17.1" "4.18.2"; candidate_of lodash "4.17.15" "4.17.21"] in
  let applied := List.length (DependencyChecker.safeUpdates found) in
  let majors := List.length (filter is_major found) in
  applied + majors = List.length found
  /\ json_formatter.generateRecommendations (Report.mk [express; lodash] found [])
     = (json_formatter.push_if_any applied
          (json_formatter.mkRecommendation "update" "medium"
             (number applied ++ " packages can be safely updated") "depcheck --fix") []
        ++ json_formatter.push_if_any majors
             (json_formatter.mkRecommendation "review" "low"
                (number majors ++ " major version updates available")
                "Review breaking changes before updating") []
        ++ json_formatter.generateRecommendations (Report.mk [express; lodash] [] []))%list.
Proof.
  exact (recommended_updates_are_the_applied_ones (NpmScanner.scanner npm_registry)
           default_options [express; lodash] _ [] eq_refl).
Defined.

Lemma indexOf_from_lower_bound (levels : list string) (x : value) :
  forall i, (0 <= i)%Z -> (-1 <= cli.indexOf_from i levels x)%Z.
Proof.
  induction levels as [|level levels IH]; intros i Hi; cbn [cli.indexOf_from].
  - apply Z.le_refl.
  - assert (0 <= i + 1)%Z as Hnext
        by (apply Z.add_nonneg_nonneg; [assumption|discriminate]).
    assert (-1 <= i)%Z as Hhere
        by (apply (Z.le_trans _ 0); [discriminate|assumption]).
    destruct x as [|j|m]; [now apply IH| |now apply IH].
    destruct j as [|b|n|s|items|fields]; try (now apply IH).
    all: destruct (String.eqb _ level); [assumption|now apply IH].
Qed.

Lemma indexOf_from_absent (levels : list string) (t : string) :
  ~ In t levels -> forall i, cli.indexOf_from i levels (J (JStr t)) = (-1)%Z.
Proof.
  induction levels as [|level levels IH]; intros Hnot i; cbn [cli.indexOf_from]; auto.
  destruct (String.eqb_spec t level) as [->|].
  - exfalso. apply Hnot. now left.
  - apply IH. intros H. apply Hnot. now right.
Qed.

(** X18: With a threshold that is none of low, moderate, high and critical (and
    without the two fail flags), [determineExitCode] is 1 as soon as the
    report holds any vulnerability, whatever its severity, and 0 when it
    holds none. *)
Theorem determineExitCode_unknown_threshold (report : Report.t) (t : string) :
  t <> "" -> ~ In t cli.severityLevels ->
  cli.determineExitCode report (cli.mkExitOptions false false (Some t))
  = match Report.vulnerabilities report with
    | [] => 0%Z
    | _ :: _ => 1%Z
    end.
Proof.
  intros Hne Hnot. unfold cli.determineExitCode. cbn [cli.failOnHigh cli.failOnOutdated cli.threshold andb].
  assert (Js.truthy t = true) as -> by now destruct t.
  unfold cli.indexOf at 1. rewrite indexOf_from_absent by assumption.
  destruct (Report.vulnerabilities report) as [|v vs]; [reflexivity|].
  cbn [existsb].
  assert ((-1 <=? cli.indexOf cli.severityLevels (Vulnerability.severity v))%Z = true) as ->.
  { apply Z.leb_le. apply indexOf_from_lower_bound. apply Z.le_refl. }
  reflexivity.
Qed.

Lemma determineExitCode_unknown_threshold_witness :
  cli.determineExitCode
    (Report.mk [] []
       [Vulnerability.mk "debug" (J (JStr "low")) Undefined Undefined Undefined
                         Undefined Undefined Undefined Undefined])
    (cli.mkExitOptions false false (Some "medium"))
  = 1%Z.
Proof.
  apply (determineExitCode_unknown_threshold
           (Report.mk [] []
              [Vulnerability.mk "debug" (J (JStr "low")) Undefined Undefined Undefined
                                Undefined Undefined Undefined Undefined]) "medium").
  - discriminate.
  - simpl. intuition discriminate.
Defined.

Lemma indexOf_rank (x : value) :
  cli.indexOf cli.severityLevels x
  = match x with
    | J (JStr s) => match rank s with Some r => Z.of_nat r | None => (-1)%Z end
    | _ => (-1)%Z
    end.
Proof.
  unfold cli.indexOf, cli.severityLevels, rank. cbn [cli.indexOf_from].
  destruct x as [|[| | |s| |]|]; try reflexivity.
  repeat match goal with
         | |- context [String.eqb ?a ?b] => destruct (String.eqb a b); [reflexivity|]
         end.
  reflexivity.
Qed.

Lemma rank_not_below_unrated (r : nat) : (Z.of_nat r <=? -1)%Z = false.
Proof.
  apply Z.leb_gt. apply (Z.lt_le_trans _ 0); [reflexivity|apply Nat2Z.is_nonneg].
Qed.

(** X19: With a threshold that is one of the four levels (and without the two
    fail flags), [determineExitCode] is 1 exactly when some vulnerability
    has a severity among the four levels at or above the threshold in
    low < moderate < high < critical; a finding whose severity is none of
    the four never counts. *)
Theorem determineExitCode_threshold (report : Report.t) (t : string) (rt : nat) :
  rank t = Some rt ->
  cli.determineExitCode report (cli.mkExitOptions false false (Some t)) = 1%Z
  <-> exists v rv,
      In v (Report.vulnerabilities report)
      /\ severity_rank v = Some rv /\ rt <= rv.
Proof.
  intros Hrank. unfold cli.determineExitCode.
  cbn [cli.failOnHigh cli.failOnOutdated cli.threshold andb].
  assert (Js.truthy t = true) as ->
      by (destruct t; [discriminate Hrank|reflexivity]).
  rewrite indexOf_rank, Hrank.
  destruct (existsb _ _) eqn:Hex.
  - split; [intros _|reflexivity].
    apply existsb_exists in Hex as (v & Hv & Hle).
    rewrite indexOf_rank in Hle.
    destruct (Vulnerability.severity v) as [|[| | |s| |]|] eqn:Hsev;
      try (rewrite rank_not_below_unrated in Hle; discriminate Hle).
    destruct (rank s) as [rv|] eqn:Hrs;
      [|rewrite rank_not_below_unrated in Hle; discriminate Hle].
    exists v, rv. unfold severity_rank. rewrite Hsev. repeat split; auto.
    apply Z.leb_le in Hle. now apply Nat2Z.inj_le.
  - split; [discriminate|].
    intros (v & rv & Hv & Hrv & Hle). exfalso.
    assert (existsb
              (fun v => (Z.of_nat rt <=? cli.indexOf cli.severityLevels
                                          (Vulnerability.severity v))%Z)
              (Report.vulnerabilities report) = true) as Hyes.
    { apply existsb_exists. exists v. split; auto.
      rewrite indexOf_rank. unfold severity_rank in Hrv.
      destruct (Vulnerability.severity v) as [|[| | |s| |]|]; try discriminate Hrv.
      rewrite Hrv. apply Z.leb_le. now apply Nat2Z.inj_le. }
    rewrite Hyes in Hex. discriminate.
Qed.

Lemma determineExitCode_threshold_witness :
  cli.determineExitCode
    (Report.mk [] []
       [Vulnerability.mk "debug" (J (JStr "info")) Undefined Undefined Undefined
                         Undefined Undefined Undefined Undefined;
        Vulnerability.mk "minimist" (J (JStr "critical")) Undefined Undefined Undefined
                         Undefined Undefined Undefined Undefined])
    (cli.mkExitOptions false false (Some "high")) = 1%Z
  <-> exists v rv,
      In v [Vulnerability.mk "debug" (J (JStr "info")) Undefined Undefined Undefined
                             Undefined Undefined Undefined Undefined;
            Vulnerability.mk "minimist" (J (JStr "critical")) Undefined Undefined
                             Undefined Undefined Undefined Undefined Undefined]
      /\ severity_rank v = Some rv /\ 2 <= rv.
Proof.
  exact (determineExitCode_threshold
           (Report.mk [] []
              [Vulnerability.mk "debug" (J (JStr "info")) Undefined Undefined Undefined
                                Undefined Undefined Undefined Undefined;
               Vulnerability.mk "minimist" (J (JStr "critical")) Undefined Undefined
                                Undefined Undefined Undefined Undefined Undefined])
           "high" 2 eq_refl).
Defined.

(* ================================================================== *)
(** * Project detection *)

(** X20: [detectProjectType] takes the npm scanner whenever package.json is
    there and readable, whether or not requirements.txt is there too; and it
    takes the python scanner whenever requirements.txt is there and
    package.json is missing or unreadable.  In both cases the checker holds
    the scanner and the name, the file and the data of the project. *)
Theorem detectProjectType_order (env : detection.Env) (this : detection.Checker) :
  (forall projectData,
      detection.access env (detection.path_join env (detection.cwd env) "package.json")
      = Ok tt ->
      detection.npm_getProjectInfo env (detection.cwd env) = Ok projectData ->
      detection.detectProjectType env this
      = (detection.mkChecker
           (detection.mkProjectInfo (Some "npm") (Some "package.json") (Some projectData))
           (Some detection.NpmScannerClass),
         Ok tt))
  /\ ((exists e, detection.access env
                  (detection.path_join env (detection.cwd env) "package.json") = Throw e)
      \/ (exists e, detection.npm_getProjectInfo env (detection.cwd env) = Throw e) ->
      detection.access env (detection.path_join env (detection.cwd env) "requirements.txt")
      = Ok tt ->
      detection.detectProjectType env this
      = (detection.mkChecker
           (detection.mkProjectInfo (Some "python") (Some "requirements.txt")
              (Some (detection.mkProjectData
                       (J (JStr (detection.path_basename env (detection.cwd env))))
                       (J (JStr "0.0.0")) (J (JStr "Python project")))))
           (Some detection.PythonScannerClass),
         Ok tt)).
Proof.
  unfold detection.detectProjectType, detection.scanners.
  cbn [detection.detect_from detection.getProjectInfo detection.python_getProjectInfo].
  split.
  - intros projectData -> ->. reflexivity.
  - intros Hnpm ->.
    destruct (detection.access env _) as [[]|e]; [|reflexivity].
    destruct Hnpm as [[e He]|[e ->]]; [discriminate He|reflexivity].
Qed.

Lemma detectProjectType_order_witness :
  detection.detectProjectType mixed_project detection.new_checker
  = (detection.mkChecker
       (detection.mkProjectInfo (Some "npm") (Some "package.json")
          (Some (detection.mkProjectData (J (JStr "unnamed-project")) (J (JStr "0.0.0"))
                                         (J (JStr "")))))
       (Some detection.NpmScannerClass),
     Ok tt).
Proof.
  exact (proj1 (detectProjectType_order mixed_project detection.new_checker)
           _ eq_refl eq_refl).
Defined.

(** X21: When package.json is there but unreadable and requirements.txt is
    missing, [detectProjectType] throws, and yet the checker is left with the
    npm scanner and with type npm: the guard of the methods that need a
    scanner passes afterwards. *)
Theorem detectProjectType_failure_leaves_scanner
        (env : detection.Env) (this : detection.Checker) (e e' : error) :
  detection.access env (detection.path_join env (detection.cwd env) "package.json")
  = Ok tt ->
  detection.npm_getProjectInfo env (detection.cwd env) = Throw e ->
  detection.access env (detection.path_join env (detection.cwd env) "requirements.txt")
  = Throw e' ->
  let (after, outcome) := detection.detectProjectType env this in
  outcome = Throw (Error "Could not detect project type. No package.json or requirements.txt found.")
  /\ detection.scanner after = Some detection.NpmScannerClass
  /\ detection.type (detection.projectInfo after) = Some "npm"
  /\ detection.require_scanner after = Ok detection.NpmScannerClass.
Proof.
  intros Haccess Hinfo Hreq.
  unfold detection.detectProjectType, detection.scanners.
  cbn [detection.detect_from detection.getProjectInfo].
  rewrite Haccess, Hinfo, Hreq. repeat split.
Qed.

Lemma detectProjectType_failure_leaves_scanner_witness :
  let (after, outcome) :=
    detection.detectProjectType broken_npm_project detection.new_checker in
  outcome = Throw (Error "Could not detect project type. No package.json or requirements.txt found.")
  /\ detection.scanner after = Some detection.NpmScannerClass
  /\ detection.type (detection.projectInfo after) = Some "npm"
  /\ detection.require_scanner after = Ok detection.NpmScannerClass.
Proof.
  exact (detectProjectType_failure_leaves_scanner broken_npm_project
           detection.new_checker (Error "Unexpected end of JSON input") (Error "ENOENT")
           eq_refl eq_refl eq_refl).
Defined.

(* ================================================================== *)
(** * Requirements without a version that semver reads *)

Lemma valid_rejects_exclusion (rest : string) :
  semver.valid (String "!" rest) = false.
Proof.
  unfold semver.valid, semver.parse.
  destruct (Nat.ltb semver.MAX_LENGTH (String.length (String "!" rest))); auto.
  unfold Js.trim. cbn [Js.trimStart].
  change (Js.is_whitespace "!") with false. cbv iota.
  cbn [Js.trimEnd]. change (Js.is_whitespace "!") with false. cbv iota.
  now destruct (Js.trimEnd rest).
Qed.

Lemma parseVersion_exclusion (rest : string) :
  outdated.parseVersion ("!=" ++ rest) = None.
Proof.
  unfold outdated.parseVersion. cbn [append Js.truthy negb outdated.strip_range_chars].
  change (outdated.is_range_char "!") with false. cbv iota.
  now rewrite valid_rejects_exclusion.
Qed.

(** X7: A dependency without an installed version whose declared version is *
    (a requirements line with a bare package name) or starts with != is never
    reported as outdated, whatever the registry answers: [check] has no
    current version to compare. *)
Theorem check_skips_unpinned_requirements
        {M} (scanner : Scanner M) (options : Options)
        (dependencies : list Dependency.t) :
  (forall dep, In dep dependencies ->
               Dependency.installed dep = None
               /\ (Dependency.version dep = "*"
                   \/ exists rest, Dependency.version dep = "!=" ++ rest)) ->
  outdated.check dependencies scanner options = Ok [].
Proof.
  intros H. rewrite check_flat_map. f_equal.
  induction dependencies as [|dep rest IH]; simpl; auto.
  rewrite IH, app_nil_r by (intros d Hd; apply H; now right).
  destruct (H dep (or_introl eq_refl)) as [Hinstalled Hversion].
  rewrite emitted_cases. unfold current_version, Js.or_else. rewrite Hinstalled.
  cbn [Js.truthy_opt].
  assert (outdated.parseVersion (Dependency.version dep) = None) as ->.
  { destruct Hversion as [->|[v ->]]; [reflexivity|apply parseVersion_exclusion]. }
  now destruct (getLatestVersion scanner (Dependency.name dep)) as [[latest|]|e].
Qed.

Lemma check_skips_unpinned_requirements_witness :
  outdated.check
    [Dependency.mk "django" "*" None production None;
     Dependency.mk "django" ("!=" ++ "4.2.1") (Some "4.2.1") production None]
    (PythonScanner.scanner pypi) default_options
  = Ok [].
Proof.
  apply check_skips_unpinned_requirements.
  intros dep [<-|[<-|[]]]; (split; [reflexivity|]).
  - now left.
  - right. now exists "4.2.1".
Defined.

(* ================================================================== *)
(** * The batch of the classifier, dependency by dependency *)

Lemma emitted_classified {M} (scanner : Scanner M) (dep : Dependency.t) :
  emitted scanner dep = classified scanner dep.
Proof. apply emitted_cases. Qed.

Lemma check_classified {M} (scanner : Scanner M) (options : Options)
      (dependencies : list Dependency.t) :
  outdated.check dependencies scanner options
  = Ok (flat_map (classified scanner) dependencies).
Proof.
  rewrite check_flat_map. f_equal.
  apply flat_map_ext. intros dep. apply emitted_classified.
Qed.

Lemma classified_outdated {M} (scanner : Scanner M) (dep : Dependency.t)
      (current latest : string) :
  getLatestVersion scanner (Dependency.name dep) = Ok (Some latest) ->
  current_version dep = Some current ->
  current <> "" -> latest <> "" -> current <> latest ->
  classified scanner dep = [candidate_of dep current latest].
Proof.
  intros Hlatest Hcurrent Hc Hl Hne. unfold classified.
  rewrite Hlatest, Hcurrent.
  assert (Js.truthy current = true) as -> by now destruct current.
  assert (Js.truthy latest = true) as -> by now destruct latest.
  apply String.eqb_neq in Hne. now rewrite Hne.
Qed.

Lemma classified_origin {M} (scanner : Scanner M) (dep : Dependency.t)
      (c : OutdatedPackage.t) :
  In c (classified scanner dep) ->
  exists current latest,
    getLatestVersion scanner (Dependency.name dep) = Ok (Some latest)
    /\ current_version dep = Some current
    /\ current <> latest
    /\ c = candidate_of dep current latest.
Proof.
  unfold classified.
  destruct (getLatestVersion scanner (Dependency.name dep)) as [[latest|]|e];
    destruct (current_version dep) as [current|]; try contradiction.
  destruct (Js.truthy current && Js.truthy latest && negb (current =? latest)) eqn:Hcond;
    [|contradiction].
  intros [<-|[]]. exists current, latest. repeat split; auto.
  apply andb_prop in Hcond as [_ Hne].
  now apply negb_true_iff, String.eqb_neq in Hne.
Qed.

Lemma parse_nonempty (version : string) (v : semver.SemVer) :
  semver.parse version = Some v -> version <> "".
Proof. intros H ->. discriminate H. Qed.

(** C6: a dependency whose lookup rejects contributes nothing and stops
    nothing.  Whatever the other dependencies are, the batch returns, and it
    returns what they yield without the failing one, in their order: for
    each of them whose lookup resolves to a version that differs from its
    current one, the candidate with both versions, the declared constraint,
    the type and the distance and flags computed from the two versions; and
    nothing else. *)
Theorem check_isolates_failed_lookup
        {M : Type} (scanner : Scanner M) (options : Options)
        (before after : list Dependency.t) (dep : Dependency.t) (e : error) :
  getLatestVersion scanner (Dependency.name dep) = Throw e ->
  outdated.check before scanner options = Ok (flat_map (classified scanner) before)
  /\ outdated.check after scanner options = Ok (flat_map (classified scanner) after)
  /\ outdated.check (before ++ dep :: after) scanner options
     = Ok (flat_map (classified scanner) before
           ++ flat_map (classified scanner) after)%list
  /\ outdated.check (before ++ after) scanner options
     = outdated.check (before ++ dep :: after) scanner options
  /\ (forall d current latest,
         In d (before ++ after) ->
         getLatestVersion scanner (Dependency.name d) = Ok (Some latest) ->
         current_version d = Some current ->
         current <> "" -> latest <> "" -> current <> latest ->
         exists found,
           outdated.check (before ++ dep :: after) scanner options = Ok found
           /\ In (candidate_of d current latest) found)
  /\ (forall found c,
         outdated.check (before ++ dep :: after) scanner options = Ok found ->
         In c found ->
         exists d current latest,
           In d (before ++ after)
           /\ getLatestVersion scanner (Dependency.name d) = Ok (Some latest)
           /\ current_version d = Some current
           /\ current <> latest
           /\ c = candidate_of d current latest).
Proof.
  intros H.
  assert (classified scanner dep = []) as Hdep
      by (unfold classified; now rewrite H).
  assert (outdated.check (before ++ dep :: after) scanner options
          = Ok (flat_map (classified scanner) before
                ++ flat_map (classified scanner) after)%list) as Hbatch.
  { rewrite check_classified, flat_map_app. simpl. now rewrite Hdep. }
  split; [apply check_classified|].
  split; [apply check_classified|].
  split; [exact Hbatch|].
  split; [now rewrite Hbatch, check_classified, flat_map_app|].
  split.
  - intros d current latest Hd Hlatest Hcurrent Hc Hl Hne.
    eexists. split; [exact Hbatch|].
    rewrite <- flat_map_app. apply in_flat_map. exists d. split; [assumption|].
    rewrite (classified_outdated scanner d current latest) by assumption.
    now left.
  - intros found c Hfound Hc. rewrite Hbatch in Hfound.
    injection Hfound as <-. rewrite <- flat_map_app in Hc.
    apply in_flat_map in Hc as (d & Hd & Hc).
    destruct (classified_origin scanner d c Hc) as (current & latest & H1 & H2 & H3 & H4).
    exists d, current, latest. auto.
Qed.

Lemma check_isolates_failed_lookup_witness :
  outdated.check ([express] ++ invalid_package :: [lodash])
    (NpmScanner.scanner npm_registry) default_options
  = Ok [OutdatedPackage.mk "express" "4.17.1" "^4.17.1" "4.18.2" production
          minor true false;
        OutdatedPackage.mk "lodash" "4.17.15" "~4.17.15" "4.17.21" production
          patch true false].
Proof.
  exact (proj1 (proj2 (proj2
           (check_isolates_failed_lookup (NpmScanner.scanner npm_registry)
              default_options [express] [lodash] invalid_package
              (Error "Package invalid-package not found in registry") eq_refl)))).
Defined.

(** C2: two equal versions that are not written alike are emitted as a
    candidate.  buffer is installed as 1.2.3+build.5, left-pad is declared as
    >= 1.2.3 and not installed, and the registry's latest of both is 1.2.3:
    current and latest parse to the same triple (1, 2, 3), the comparison
    of the triples gives 'none', and [check] returns a candidate for each,
    with updateType 'none' and safe true. *)
Theorem equal_versions_are_emitted :
  current_version build_tagged = Some "1.2.3+build.5"
  /\ current_version spaced_range = Some " 1.2.3"
  /\ semver.parse "1.2.3+build.5" = Some (semver.mkSemVer 1 2 3)
  /\ semver.parse " 1.2.3" = Some (semver.mkSemVer 1 2 3)
  /\ semver.parse "1.2.3" = Some (semver.mkSemVer 1 2 3)
  /\ distance_by_triples (semver.mkSemVer 1 2 3) (semver.mkSemVer 1 2 3) = none
  /\ outdated.check [build_tagged; spaced_range]
       (NpmScanner.scanner same_version_registry) default_options
     = Ok [OutdatedPackage.mk "buffer" "1.2.3+build.5" "^1.2.3" "1.2.3" production
             none true false;
           OutdatedPackage.mk "left-pad" " 1.2.3" ">= 1.2.3" "1.2.3" production
             none true false].
Proof. now vm_compute. Qed.

(** X22: the candidates that [check] returns carry the distance that the
    comparison of the parsed (major, minor, patch) triples gives, in that
    priority order, with safe and breaking set by whether it is 'major'; a
    version that does not parse gives 'unknown'; the three rows of the
    specification's table come out of [check] as minor, patch and major; and
    a dependency whose latest version is, as a string, its current version
    yields no candidate. *)
Theorem check_classifies_by_priority :
  (forall current latest c l,
      semver.parse current = Some c -> semver.parse latest = Some l ->
      outdated.getUpdateType current latest = distance_by_triples c l)
  /\ (forall current latest,
        semver.parse current = None \/ semver.parse latest = None ->
        outdated.getUpdateType current latest = unknown)
  /\ (forall M (scanner : Scanner M) options dep current latest c l,
        getLatestVersion scanner (Dependency.name dep) = Ok (Some latest) ->
        current_version dep = Some current ->
        semver.parse current = Some c -> semver.parse latest = Some l ->
        current <> latest ->
        outdated.check [dep] scanner options
        = Ok [OutdatedPackage.mk (Dependency.name dep) current (Dependency.version dep)
                latest (Dependency.type dep) (distance_by_triples c l)
                (negb (UpdateType_eqb (distance_by_triples c l) major))
                (UpdateType_eqb (distance_by_triples c l) major)])
  /\ (forall M (scanner : Scanner M) options dep current latest,
        getLatestVersion scanner (Dependency.name dep) = Ok (Some latest) ->
        current_version dep = Some current ->
        semver.parse current = None \/ semver.parse latest = None ->
        current <> "" -> latest <> "" -> current <> latest ->
        outdated.check [dep] scanner options
        = Ok [OutdatedPackage.mk (Dependency.name dep) current (Dependency.version dep)
                latest (Dependency.type dep) unknown true false])
  /\ outdated.check [express; lodash; chalk] (NpmScanner.scanner npm_registry)
       default_options
     = Ok [OutdatedPackage.mk "express" "4.17.1" "^4.17.1" "4.18.2" production
             minor true false;
           OutdatedPackage.mk "lodash" "4.17.15" "~4.17.15" "4.17.21" production
             patch true false;
           OutdatedPackage.mk "chalk" "4.1.2" "^4.1.2" "5.0.0" production
             major false true]
  /\ (forall M (scanner : Scanner M) options dep v,
        current_version dep = Some v ->
        getLatestVersion scanner (Dependency.name dep) = Ok (Some v) ->
        outdated.check [dep] scanner options = Ok [])
  /\ outdated.check [express_current] (NpmScanner.scanner current_registry)
       default_options
     = Ok [].
Proof.
  assert (forall current latest, semver.parse current = None \/ semver.parse latest = None ->
                                 outdated.getUpdateType current latest = unknown) as Hunknown.
  { intros current latest [H|H]; rewrite getUpdateType_spec, H; auto.
    now destruct (semver.parse current). }
  split; [|split; [|split; [|split; [|split; [|split]]]]].
  - intros current latest c l Hc Hl. now rewrite getUpdateType_spec, Hc, Hl.
  - exact Hunknown.
  - intros M scanner options dep current latest c l Hlatest Hcurrent Hc Hl Hne.
    rewrite check_classified. simpl.
    rewrite (classified_outdated scanner dep current latest); auto.
    + unfold candidate_of. now rewrite getUpdateType_spec, Hc, Hl.
    + exact (parse_nonempty _ _ Hc).
    + exact (parse_nonempty _ _ Hl).
  - intros M scanner options dep current latest Hlatest Hcurrent Hparse Hc Hl Hne.
    rewrite check_classified. simpl.
    rewrite (classified_outdated scanner dep current latest); auto.
    unfold candidate_of. now rewrite (Hunknown _ _ Hparse).
  - now vm_compute.
  - intros M scanner options dep v Hcur Hlat.
    rewrite check_classified. simpl. unfold classified.
    rewrite Hlat, Hcur, String.eqb_refl. now rewrite andb_false_r.
  - now vm_compute.
Qed.

Lemma check_classifies_by_priority_witness :
  outdated.getUpdateType "4.17.1" "4.18.2"
  = distance_by_triples (semver.mkSemVer 4 17 1) (semver.mkSemVer 4 18 2)
  /\ outdated.getUpdateType "4.2.1" "5.0" = unknown
  /\ outdated.check [chalk] (NpmScanner.scanner npm_registry) default_options
     = Ok [OutdatedPackage.mk "chalk" "4.1.2" "^4.1.2" "5.0.0" production
             major false true]
  /\ outdated.check [django] (PythonScanner.scanner pypi) default_options
     = Ok [OutdatedPackage.mk "django" "4.2.1" "==4.2.1" "5.0" production
             unknown true false]
  /\ outdated.check [express_current] (NpmScanner.scanner current_registry)
       default_options
     = Ok [].
Proof.
  destruct check_classifies_by_priority
    as (Hparsed & Hunknown & Hcheck & Hcheck_unknown & _ & Hequal & _).
  split; [|split; [|split; [|split]]].
  - apply Hparsed; reflexivity.
  - apply Hunknown. right. reflexivity.
  - apply (Hcheck _ (NpmScanner.scanner npm_registry) default_options chalk
             "4.1.2" "5.0.0" (semver.mkSemVer 4 1 2) (semver.mkSemVer 5 0 0));
      (reflexivity || discriminate).
  - apply (Hcheck_unknown _ (PythonScanner.scanner pypi) default_options django
             "4.2.1" "5.0"); try reflexivity; try discriminate.
    right. reflexivity.
  - apply (Hequal _ (NpmScanner.scanner current_registry) default_options
             express_current "4.18.2"); reflexivity.
Defined.

(** X4: with [options.verbose] off, where the [catch] reads nothing of what
    was thrown, [check] never throws, examines the dependencies one by one
    in their order, and returns at most one candidate for each: the result
    for a concatenation is the concatenation of the results, and it is no
    longer than the list of dependencies. *)
Theorem check_is_compositional
        {M} (scanner : Scanner M) (options : Options)
        (first second : list Dependency.t) :
  verbose options = false ->
  exists found_first found_second,
    outdated.check first scanner options = Ok found_first
    /\ outdated.check second scanner options = Ok found_second
    /\ outdated.check (first ++ second) scanner options
       = Ok (found_first ++ found_second)%list
    /\ List.length found_first <= List.length first.
Proof.
  intros _.
  exists (flat_map (emitted scanner) first), (flat_map (emitted scanner) second).
  rewrite !check_flat_map, flat_map_app. repeat split.
  induction first as [|dep first IH]; simpl; auto.
  rewrite List.length_app.
  pose proof (emitted_at_most_one scanner dep) as H.
  apply (Nat.le_trans _ (1 + List.length (flat_map (emitted scanner) first))).
  - now apply Nat.add_le_mono_r.
  - simpl. now apply le_n_S.
Qed.

Lemma check_is_compositional_witness :
  exists found_first found_second,
    outdated.check [express; invalid_package] (NpmScanner.scanner npm_registry)
      default_options
    = Ok found_first
    /\ outdated.check [lodash] (NpmScanner.scanner npm_registry) default_options
       = Ok found_second
    /\ outdated.check ([express; invalid_package] ++ [lodash])
         (NpmScanner.scanner npm_registry) default_options
       = Ok (found_first ++ found_second)%list
    /\ List.length found_first <= List.length [express; invalid_package].
Proof.
  exact (check_is_compositional (NpmScanner.scanner npm_registry) default_options
           [express; invalid_package] [lodash] eq_refl).
Defined.

(* ================================================================== *)
(** * The severities of the findings of the python scanner *)

Lemma get_field (fields : list (string * json)) (key : string) :
  JsObject.get (J (JObj fields)) key = Ok (read key fields).
Proof. unfold JsObject.get, read. now destruct (JsObject.own key fields). Qed.

Lemma mapSeverity_string (raw sev : value) :
  PythonScanner.mapSeverity raw = Ok sev -> exists label, raw = J (JStr label).
Proof.
  destruct raw as [|[| | |label| |]|]; try discriminate. intros _. now exists label.
Qed.

(** What the loop over the records of one package pushes: one finding for
    each record it gets through, made from that record. *)
Lemma push_vulns_findings (package : string) (vulns : list json) :
  forall vulnerabilities,
  exists pushed outcome,
    PythonScanner.push_vulns package vulns vulnerabilities
    = ((vulnerabilities ++ pushed)%list, outcome)
    /\ forall finding,
        In finding pushed ->
        exists fields label,
          In (JObj fields) vulns
          /\ JsObject.own "severity" fields = Some (JStr label)
          /\ PythonScanner.mapSeverity (J (JStr label)) = Ok (Vulnerability.severity finding)
          /\ finding
             = Vulnerability.mk package (Vulnerability.severity finding)
                 (read "advisory" fields) Undefined Undefined Undefined
                 (read "cve" fields) (read "specs" fields) (read "fixed_in" fields).
Proof.
  induction vulns as [|vuln rest IH]; intros vulnerabilities.
  - exists [], (Ok tt). rewrite app_nil_r. split; [reflexivity|]. intros finding [].
  - assert (forall e, exists pushed outcome,
                 (vulnerabilities, @Throw unit e) = ((vulnerabilities ++ pushed)%list, outcome)
                 /\ forall finding : Vulnerability.t, In finding pushed -> False)
      as Hstop.
    { intros e. exists [], (Throw e). rewrite app_nil_r. split; [reflexivity|].
      intros finding []. }
    cbn [PythonScanner.push_vulns].
    destruct vuln as [| | | | |fields];
      try (destruct (Hstop (TypeError "Cannot read properties of undefined (reading 'toLowerCase')"))
            as (pushed & outcome & Heq & Hnone);
           exists pushed, outcome; split; [exact Heq|];
           intros finding Hin; destruct (Hnone finding Hin)).
    + destruct (Hstop (TypeError "Cannot read properties of null (reading 'severity')"))
        as (pushed & outcome & Heq & Hnone).
      exists pushed, outcome. split; [exact Heq|].
      intros finding Hin. destruct (Hnone finding Hin).
    + rewrite !get_field. cbn [bind].
      destruct (PythonScanner.mapSeverity (read "severity" fields)) as [sev|e] eqn:Hmap.
      * cbn [bind].
        destruct (mapSeverity_string _ _ Hmap) as [label Hlabel].
        destruct (IH (vulnerabilities ++
                      [Vulnerability.mk package sev (read "advisory" fields) Undefined
                         Undefined Undefined (read "cve" fields) (read "specs" fields)
                         (read "fixed_in" fields)])%list)
          as (pushed & outcome & Heq & Hall).
        rewrite Heq, <- app_assoc.
        eexists (_ :: pushed), outcome. split; [reflexivity|].
        intros finding [<-|Hin].
        -- exists fields, label. split; [now left|].
           rewrite Hlabel in Hmap. split; [|split; [exact Hmap|reflexivity]].
           unfold read in Hlabel.
           destruct (JsObject.own "severity" fields) as [j|]; [|discriminate].
           now injection Hlabel as ->.
        -- destruct (Hall finding Hin) as (fields' & label' & Hin' & Hrest).
           exists fields', label'. split; [now right|exact Hrest].
      * cbn [bind]. destruct (Hstop e) as (pushed & outcome & Heq & Hnone).
        exists pushed, outcome. split; [exact Heq|].
        intros finding Hin. destruct (Hnone finding Hin).
Qed.

Lemma rated_record (record : json) :
  rated record = true ->
  exists fields label,
    record = JObj fields
    /\ JsObject.own "severity" fields = Some (JStr label)
    /\ JsObject.inherited (Js.toLowerCase label) = false.
Proof.
  destruct record as [| | | | |fields]; try discriminate. unfold rated.
  destruct (JsObject.own "severity" fields) as [[| | |label| |]|] eqn:Hsev;
    try discriminate.
  intros H%negb_true_iff. now exists fields, label.
Qed.

Lemma push_vulns_rated (package : string) (vulns : list json) :
  forallb rated vulns = true ->
  forall vulnerabilities,
    PythonScanner.push_vulns package vulns vulnerabilities
    = ((vulnerabilities ++ map (finding_of package) vulns)%list, Ok tt).
Proof.
  induction vulns as [|vuln rest IH]; intros Hall vulnerabilities.
  - simpl. now rewrite app_nil_r.
  - simpl in Hall. apply andb_prop in Hall as [Hvuln Hrest].
    destruct (rated_record vuln Hvuln) as (fields & label & -> & Hsev & Hlabel).
    cbn [PythonScanner.push_vulns]. rewrite !get_field.
    unfold read at 1. rewrite Hsev. cbn [bind].
    rewrite (mapSeverity_level label Hlabel). cbn [bind].
    rewrite (IH Hrest), <- app_assoc. cbn [map finding_of]. now rewrite Hsev.
Qed.

Lemma try_body_findings (axios_get : string -> result json) (dep : Dependency.t)
      (vulnerabilities : list Vulnerability.t) :
  exists pushed outcome,
    PythonScanner.try_body axios_get dep vulnerabilities
    = ((vulnerabilities ++ pushed)%list, outcome)
    /\ forall finding, In finding pushed -> from_feed axios_get [dep] finding.
Proof.
  assert (forall outcome : result unit,
             exists pushed outcome',
               (vulnerabilities, outcome) = ((vulnerabilities ++ pushed)%list, outcome')
               /\ forall finding, In finding pushed -> from_feed axios_get [dep] finding)
    as Hnone.
  { intros outcome. exists [], outcome. rewrite app_nil_r. split; [reflexivity|].
    intros finding []. }
  unfold PythonScanner.try_body. fold (feed_url dep).
  destruct (axios_get (feed_url dep)) as [data|e] eqn:Hdata; [|apply Hnone].
  destruct (JsObject.truthy_json data); [|apply Hnone].
  destruct (JsObject.get (J data) "vulnerabilities") as [vulns|e] eqn:Hvulns; [|apply Hnone].
  destruct (JsObject.truthy vulns); [|apply Hnone].
  destruct vulns as [|[| | | |items|]|]; try apply Hnone.
  destruct (push_vulns_findings (Dependency.name dep) items vulnerabilities)
    as (pushed & outcome & -> & Hall).
  exists pushed, outcome. split; [reflexivity|].
  intros finding Hin.
  destruct (Hall finding Hin) as (fields & label & Hitem & Hsev & Hmap & Hfinding).
  exists dep, data, items, fields, label.
  split; [now left|]. auto 10.
Qed.

Lemma from_feed_more (axios_get : string -> result json)
      (dependencies dependencies' : list Dependency.t) (finding : Vulnerability.t) :
  (forall dep, In dep dependencies -> In dep dependencies') ->
  from_feed axios_get dependencies finding -> from_feed axios_get dependencies' finding.
Proof.
  intros Hsub (dep & data & items & fields & label & Hdep & Hrest).
  exists dep, data, items, fields, label. split; [now apply Hsub|exact Hrest].
Qed.

Lemma getVulnerabilities_from_findings (axios_get : string -> result json)
      (dependencies : list Dependency.t) :
  forall vulnerabilities,
  exists pushed,
    PythonScanner.getVulnerabilities_from axios_get dependencies vulnerabilities
    = Ok (vulnerabilities ++ pushed)%list
    /\ forall finding, In finding pushed -> from_feed axios_get dependencies finding.
Proof.
  induction dependencies as [|dep rest IH]; intros vulnerabilities.
  - exists []. simpl. rewrite app_nil_r. split; [reflexivity|]. intros finding [].
  - cbn [PythonScanner.getVulnerabilities_from].
    destruct (try_body_findings axios_get dep vulnerabilities)
      as (first & outcome & -> & Hfirst).
    destruct (IH (vulnerabilities ++ first)%list) as (more & Hmore & Hall).
    exists (first ++ more)%list. split.
    + rewrite app_assoc, <- Hmore. now destruct outcome.
    + intros finding [Hin|Hin]%in_app_or.
      * apply (from_feed_more axios_get [dep]); [|now apply Hfirst].
        intros d [<-|[]]. now left.
      * apply (from_feed_more axios_get rest); [|now apply Hall].
        intros d Hd. now right.
Qed.

Lemma try_body_rated (axios_get : string -> result json) (dep : Dependency.t)
      (vulnerabilities : list Vulnerability.t) :
  rated_feed axios_get dep = true ->
  exists outcome,
    PythonScanner.try_body axios_get dep vulnerabilities
    = ((vulnerabilities ++ findings_of axios_get dep)%list, outcome).
Proof.
  unfold rated_feed, findings_of, PythonScanner.try_body. fold (feed_url dep).
  destruct (axios_get (feed_url dep)) as [data|e].
  - destruct data as [| | | | |fields]; try discriminate.
    cbn [JsObject.truthy_json]. rewrite get_field. unfold read.
    destruct (JsObject.own "vulnerabilities" fields) as [[| | | |items|]|];
      try discriminate.
    intros Hall. cbn [JsObject.truthy JsObject.truthy_json].
    rewrite (push_vulns_rated _ _ Hall). now exists (Ok tt).
  - intros _. rewrite app_nil_r. now exists (Throw e).
Qed.

Lemma getVulnerabilities_from_rated (axios_get : string -> result json)
      (dependencies : list Dependency.t) :
  (forall dep, In dep dependencies -> rated_feed axios_get dep = true) ->
  forall vulnerabilities,
    PythonScanner.getVulnerabilities_from axios_get dependencies vulnerabilities
    = Ok (vulnerabilities ++ flat_map (findings_of axios_get) dependencies)%list.
Proof.
  induction dependencies as [|dep rest IH]; intros Hall vulnerabilities.
  - simpl. now rewrite app_nil_r.
  - cbn [PythonScanner.getVulnerabilities_from flat_map].
    destruct (try_body_rated axios_get dep vulnerabilities (Hall dep (or_introl eq_refl)))
      as (outcome & ->).
    rewrite app_assoc, <- IH by (intros d Hd; apply Hall; now right).
    now destruct outcome.
Qed.

(** C7, as the code has it.  The python scanner lower-cases the upstream
    label and then maps critical, high, medium, moderate and low by the table
    and every other label to moderate, so that a case variant of a label of
    the table maps as that label does.  Every finding that
    [getVulnerabilities] returns is made from a record of the feed of one of
    the dependencies whose severity is a string label, and carries the level
    so mapped, one of the four; and where every feed that answers holds an
    array of such records, the findings are those of all the records, in
    order.  The labels left out are those whose lower case names a member
    that the table inherits. *)
Theorem mapSeverity_after_lower_case :
  (forall label,
      JsObject.inherited (Js.toLowerCase label) = false ->
      PythonScanner.mapSeverity (J (JStr label))
      = Ok (J (JStr (level_of (Js.toLowerCase label))))
      /\ in_taxonomy (J (JStr (level_of (Js.toLowerCase label)))) = true)
  /\ (forall axios_get dependencies findings finding,
         PythonScanner.getVulnerabilities axios_get dependencies = Ok findings ->
         In finding findings ->
         exists dep data items fields label,
           In dep dependencies
           /\ axios_get (feed_url dep) = Ok data
           /\ JsObject.get (J data) "vulnerabilities" = Ok (J (JArr items))
           /\ In (JObj fields) items
           /\ JsObject.own "severity" fields = Some (JStr label)
           /\ Vulnerability.package finding = Dependency.name dep
           /\ PythonScanner.mapSeverity (J (JStr label))
              = Ok (Vulnerability.severity finding)
           /\ (JsObject.inherited (Js.toLowerCase label) = false ->
               Vulnerability.severity finding
               = J (JStr (level_of (Js.toLowerCase label)))
               /\ in_taxonomy (Vulnerability.severity finding) = true
               /\ finding = finding_of (Dependency.name dep) (JObj fields)))
  /\ (forall axios_get dependencies,
         (forall dep, In dep dependencies -> rated_feed axios_get dep = true) ->
         PythonScanner.getVulnerabilities axios_get dependencies
         = Ok (flat_map (findings_of axios_get) dependencies)).
Proof.
  split; [|split].
  - intros label Hlabel. split.
    + now apply mapSeverity_level.
    + apply level_of_in_taxonomy.
  - intros axios_get dependencies findings finding Hfound Hin.
    unfold PythonScanner.getVulnerabilities in Hfound.
    destruct (getVulnerabilities_from_findings axios_get dependencies [])
      as (pushed & Hpushed & Hall).
    rewrite Hpushed in Hfound. injection Hfound as <-.
    destruct (Hall finding Hin)
      as (dep & data & items & fields & label & Hdep & Hdata & Hitems & Hitem & Hsev
          & Hmap & Hfinding).
    exists dep, data, items, fields, label.
    repeat (split; [assumption|]).
    split; [now rewrite Hfinding|]. split; [assumption|].
    intros Hlabel. rewrite (mapSeverity_level label Hlabel) in Hmap.
    injection Hmap as Hmap. rewrite <- Hmap.
    split; [reflexivity|]. split; [apply level_of_in_taxonomy|].
    rewrite Hfinding, <- Hmap. cbn [finding_of]. now rewrite Hsev.
  - intros axios_get dependencies Hall.
    unfold PythonScanner.getVulnerabilities.
    now rewrite getVulnerabilities_from_rated.
Qed.

Lemma mapSeverity_after_lower_case_witness :
  (PythonScanner.mapSeverity (J (JStr "Medium"))
   = Ok (J (JStr (level_of (Js.toLowerCase "Medium"))))
   /\ in_taxonomy (J (JStr (level_of (Js.toLowerCase "Medium")))) = true)
  /\ (exists dep data items fields label,
         In dep [django]
         /\ django_feed (feed_url dep) = Ok data
         /\ JsObject.get (J data) "vulnerabilities" = Ok (J (JArr items))
         /\ In (JObj fields) items
         /\ JsObject.own "severity" fields = Some (JStr label)
         /\ "django" = Dependency.name dep
         /\ PythonScanner.mapSeverity (J (JStr label)) = Ok (J (JStr "high"))
         /\ (JsObject.inherited (Js.toLowerCase label) = false ->
             J (JStr "high") = J (JStr (level_of (Js.toLowerCase label)))
             /\ in_taxonomy (J (JStr "high")) = true
             /\ Vulnerability.mk "django" (J (JStr "high")) (J (JStr "SQL injection"))
                  Undefined Undefined Undefined Undefined Undefined Undefined
                = finding_of (Dependency.name dep) (JObj fields)))
  /\ PythonScanner.getVulnerabilities django_feed [django]
     = Ok [Vulnerability.mk "django" (J (JStr "high")) (J (JStr "SQL injection"))
             Undefined Undefined Undefined Undefined Undefined Undefined;
           Vulnerability.mk "django" (J (JStr "moderate")) Undefined
             Undefined Undefined Undefined (J (JStr "CVE-2023-1")) Undefined Undefined].
Proof.
  destruct mapSeverity_after_lower_case as (Hmap & Hsound & Hcomplete).
  split; [|split].
  - exact (Hmap "Medium" eq_refl).
  - exact (Hsound django_feed [django] _
             (Vulnerability.mk "django" (J (JStr "high")) (J (JStr "SQL injection"))
                Undefined Undefined Undefined Undefined Undefined Undefined)
             eq_refl (or_introl eq_refl)).
  - apply (Hcomplete django_feed [django]). intros dep [<-|[]]. reflexivity.
Defined.

(* ================================================================== *)
(** * An addressed line within a requirements file *)













(* ================================================================== *)
(** * The read of requirements.txt *)

(** X16: the python [scan] rejects exactly when the read of requirements.txt
    does, and then with the error of the read, which stands outside any
    [try]; once the file is read, [scan] does not throw, lists at most one
    dependency for each line, and every dependency it lists is a production
    dependency without an installed version whose name is not in the ignore
    list. *)
Theorem python_scan_outcome options path_join readFile projectPath :
  match readFile (path_join projectPath "requirements.txt") with
  | Throw e =>
      PythonScanner.scan_path options path_join readFile projectPath = Throw e
  | Ok content =>
      exists found,
        PythonScanner.scan_path options path_join readFile projectPath = Ok found
        /\ PythonScanner.scan options content = Ok found
        /\ List.length found <= List.length (Js.split content PythonScanner.newline)
        /\ forall dep, In dep found ->
                       Dependency.type dep = production
                       /\ Dependency.installed dep = None
                       /\ shouldIgnore options (Dependency.name dep) = false
  end.
Proof.
  unfold PythonScanner.scan_path.
  destruct (readFile (path_join projectPath "requirements.txt")) as [content|e];
    [|reflexivity].
  cbn [bind]. unfold PythonScanner.scan.
  induction (Js.split content PythonScanner.newline) as [|line lines IH]; simpl.
  - exists []. split; [reflexivity|]. split; [reflexivity|]. split; [auto|].
    intros dep [].
  - destruct (python_scan_line_members options line) as (one & -> & Hlen & _ & Hone).
    destruct IH as (more & -> & _ & Hmore & Hdeps). simpl.
    exists (one ++ more)%list. split; [reflexivity|]. split; [reflexivity|]. split.
    + rewrite List.length_app.
      apply (Nat.le_trans _ (1 + List.length more)).
      * now apply Nat.add_le_mono_r.
      * simpl. now apply le_n_S.
    + intros dep [H|H]%in_app_or; auto.
Qed.
